(** * UserComponentFactory: resolution, parameter merging and initialisation

    A shallow embedding of
    [packages/ag-grid-community/src/ts/components/framework/userComponentFactory.ts].

    JavaScript values are an inductive type, objects are association lists in
    insertion order, exceptions are an explicit result type, and the calls that
    leave the factory (constructors, the framework wrapper, bean wiring, the
    init entry point, the customisation callback, the console) are recorded in
    an event trace threaded by a small state-and-exception monad. *)

From Stdlib Require Import String List Bool Arith Lia.
Import ListNotations.
Local Open Scope string_scope.
Local Open Scope list_scope.

(** ** JavaScript values *)

Module Js.

(** Functions and classes are opaque references; what they compute is given
    by the environment of the factory. *)
#[warnings="-register-all"]
Inductive JsValue : Type :=
| JUndefined
| JNull
| JBool (b : bool)
| JNum (n : nat)
| JStr (s : string)
| JObj (fields : list (string * JsValue))
| JFun (ref : nat).

Definition Fields : Type := list (string * JsValue).

(** [if (v)] *)
Definition truthy (v : JsValue) : bool :=
  match v with
  | JUndefined | JNull => false
  | JBool b => b
  | JNum n => negb (Nat.eqb n 0)
  | JStr s => negb (String.eqb s "")
  | JObj _ | JFun _ => true
  end.

(** [v != null] (loose comparison: neither null nor undefined). *)
Definition notNull (v : JsValue) : bool :=
  match v with
  | JUndefined | JNull => false
  | _ => true
  end.

Inductive TypeOf : Type :=
  T_undefined | T_object | T_boolean | T_number | T_string | T_function.

Definition typeof (v : JsValue) : TypeOf :=
  match v with
  | JUndefined => T_undefined
  | JNull | JObj _ => T_object
  | JBool _ => T_boolean
  | JNum _ => T_number
  | JStr _ => T_string
  | JFun _ => T_function
  end.

(** Own-property lookup in a field list. *)
Fixpoint lookup (k : string) (fs : Fields) : option JsValue :=
  match fs with
  | [] => None
  | (k', v) :: tl => if String.eqb k k' then Some v else lookup k tl
  end.

(** [o[k] = v] on a field list: overwrite in place, or append a new key. *)
Fixpoint assign (k : string) (v : JsValue) (fs : Fields) : Fields :=
  match fs with
  | [] => [(k, v)]
  | (k', v') :: tl =>
      if String.eqb k k' then (k', v) :: tl else (k', v') :: assign k v tl
  end.

(** [delete o[k]] *)
Fixpoint remove (k : string) (fs : Fields) : Fields :=
  match fs with
  | [] => []
  | (k', v') :: tl =>
      if String.eqb k k' then remove k tl else (k', v') :: remove k tl
  end.

(** [o[k]] as an expression: [undefined] for a key that is not there, and for
    a receiver that has no own properties. *)
Definition get (o : JsValue) (k : string) : JsValue :=
  match o with
  | JObj fs => match lookup k fs with Some v => v | None => JUndefined end
  | _ => JUndefined
  end.

(** A parameter declared with the default [= null]. *)
Definition orNull (v : JsValue) : JsValue :=
  match v with JUndefined => JNull | p => p end.

(** Objects, as opposed to leaves. *)
Definition isObject (v : JsValue) : bool :=
  match v with JObj _ => true | _ => false end.

(** [k in o] for own keys. *)
Definition hasKey (o : Fields) (k : string) : bool :=
  match lookup k o with Some _ => true | None => false end.

End Js.
Import Js.

(** ** Exceptions, results and the event trace *)

(** What a [throw] carries: [Error(message)] raised by the factory itself, or
    the engine's [TypeError] on reading a property of null or undefined. *)
Inductive Exception : Type :=
| Error (message : string)
| TypeError (what : string).

Inductive Res (A : Type) : Type :=
| Ok (a : A)
| Throw (e : Exception).
Arguments Ok {A} a.
Arguments Throw {A} e.

(** ** Data model of the factory *)

Inductive ComponentType : Type := PLAIN_JAVASCRIPT | FRAMEWORK.

Inductive ComponentSource : Type := DEFAULT | REGISTERED_BY_NAME | HARDCODED.

(** [RegisteredComponentSource] of the registry. *)
Inductive RegisteredComponentSource : Type := RCS_DEFAULT | RCS_REGISTERED.

(** [interface ComponentSelectorResult { component?: string; params?: any }];
    an absent [component] is [None], an absent [params] is [JUndefined]. *)
Record ComponentSelectorResult : Type := {
  sel_component : option string;
  sel_params : JsValue
}.

Record ComponentClassDef : Type := {
  component : JsValue;
  type : ComponentType;
  source : ComponentSource;
  paramsFromSelector : JsValue
}.

Record RegisteredComponent : Type := {
  rc_component : JsValue;
  rc_type : ComponentType;
  rc_source : RegisteredComponentSource
}.

Record ComponentMetadata : Type := {
  mandatoryMethodList : list string;
  optionalMethodList : list string
}.

(** Modelled from the spec: the [Promise] class of [utils], which is not part
    of the sources at hand.  A future is resolved, failed, or still in progress
    on an outside deferred [src]; in the last case it already knows the value
    it resolves to when [src] completes. *)
Inductive Promise (T : Type) : Type :=
| Resolved (v : T)
| Rejected (reason : string)
| InProgress (src : nat) (v : T).
Arguments Resolved {T} v.
Arguments Rejected {T} reason.
Arguments InProgress {T} src v.

Module PromiseOps.

(** [Promise.resolve(value)] *)
Definition resolve {T} (value : T) : Promise T := Resolved value.

(** [promise.map(adapter)] *)
Definition map {T Z} (adapter : T -> Z) (p : Promise T) : Promise Z :=
  match p with
  | Resolved v => Resolved (adapter v)
  | Rejected r => Rejected r
  | InProgress src v => InProgress src (adapter v)
  end.

(** How the outside deferred [src] ends. *)
Inductive Settlement : Type := Completed | Failed (reason : string).

(** The state of a future after deferred [src] has ended with [how]. *)
Definition settle {T} (src : nat) (how : Settlement) (p : Promise T) : Promise T :=
  match p with
  | InProgress src' v =>
      if Nat.eqb src src'
      then match how with Completed => Resolved v | Failed r => Rejected r end
      else p
  | _ => p
  end.

End PromiseOps.

(** What [init] hands back: nothing ([void]) or a [Promise<void>]. *)
Inductive InitReturn : Type :=
| InitVoid
| InitDeferred (p : Promise unit).

(** A component instance ([IComponent]): its identity and its optional
    [init] entry point. *)
Record Component : Type := {
  ident : nat;
  init : option (JsValue -> InitReturn)
}.

(** [frameworkComponentWrapper.wrap(raw, mandatoryMethods, optionalMethods, name)] *)
Record FrameworkComponentWrapper : Type := {
  wrap : JsValue -> list string -> list string -> option string -> Component
}.

(** The collaborators of [UserComponentFactory]: its autowired beans, and the
    meaning of the opaque function and class references it calls. *)
Record UserComponentFactory : Type := {
  gridOptions : JsValue;
  (** [context.getBean(name)] *)
  getBean : string -> JsValue;
  (** [agComponentUtils.doesImplementIComponent(candidate)] *)
  doesImplementIComponent : JsValue -> bool;
  (** [agComponentUtils.adaptFunction(propertyName, fn, type, source)] *)
  adaptFunction :
    string -> JsValue -> ComponentType -> ComponentSource -> option ComponentClassDef;
  (** [componentMetadataProvider.retrieve(propertyName)] *)
  retrieveMetadata : string -> option ComponentMetadata;
  (** [userComponentRegistry.retrieve(name)] *)
  retrieve : string -> option RegisteredComponent;
  (** the [@Optional] bean; [None] when no framework version is in use *)
  frameworkComponentWrapper : option FrameworkComponentWrapper;
  (** [new clazz()] *)
  construct : JsValue -> Component;
  (** calling the function stored at [P + "Selector"] *)
  callSelector : JsValue -> JsValue -> option ComponentSelectorResult;
  (** calling the function stored at [P + "Params"] *)
  callParams : JsValue -> JsValue -> JsValue;
  (** [_.cloneObject(object)] of [utils] *)
  cloneObject : JsValue -> JsValue
}.

(** Calls that leave the factory, in the order they are made. *)
Inductive Event : Type :=
| EvNew (clazz : JsValue)
| EvWrap (raw : JsValue) (mandatoryMethods optionalMethods : list string)
         (name : option string)
| EvWireBean (c : Component)
| EvCustomInitParams (params : JsValue) (c : Component)
| EvInit (c : Component) (params : JsValue)
| EvConsoleError (message : string).

(** Computations that may throw and that extend the event trace. *)
Definition M (A : Type) : Type := list Event -> Res A * list Event.

Definition ret {A} (a : A) : M A := fun tr => (Ok a, tr).
Definition throw {A} (e : Exception) : M A := fun tr => (Throw e, tr).
Definition emit (ev : Event) : M unit := fun tr => (Ok tt, tr ++ [ev]).
Definition lift {A} (r : Res A) : M A := fun tr => (r, tr).
Definition bind {A B} (m : M A) (k : A -> M B) : M B :=
  fun tr =>
    match m tr with
    | (Ok a, tr') => k a tr'
    | (Throw e, tr') => (Throw e, tr')
    end.

Notation "x <- m ;; k" := (bind m (fun x => k))
  (at level 61, m at next level, right associativity).
Notation "m ;;; k" := (bind m (fun _ => k))
  (at level 61, right associativity).

(** Run from the empty trace. *)
Definition run {A} (m : M A) : Res A * list Event := m [].

(** ** Deep merge *)

(** Modelled from the spec: [_.mergeDeep(dest, source)] of [utils], which is
    not part of the sources at hand.  The keys of [source] are visited in
    order; where both sides hold an object under a key the two are merged
    recursively, otherwise the value of [source] overwrites the one of [dest].
    A [source] that is not an object contributes nothing.  The merged [dest]
    is returned instead of being updated in place. *)
Fixpoint mergeDeep (dest : Fields) (source : JsValue) {struct source} : Fields :=
  match source with
  | JObj fs =>
      (fix each (fs : Fields) (dest : Fields) {struct fs} : Fields :=
         match fs with
         | [] => dest
         | (key, newValue) :: rest =>
             each rest
               match lookup key dest, newValue with
               | Some (JObj oldValue), JObj _ =>
                   assign key (JObj (mergeDeep oldValue newValue)) dest
               | _, _ => assign key newValue dest
               end
         end) fs dest
  | _ => dest
  end.

(** One key of the source merged into [dest]. *)
Definition mergeKey (dest : Fields) (key : string) (newValue : JsValue) : Fields :=
  match lookup key dest, newValue with
  | Some (JObj oldValue), JObj _ =>
      assign key (JObj (mergeDeep oldValue newValue)) dest
  | _, _ => assign key newValue dest
  end.

(** ** The factory *)

(** The raw entries of one extension point after classification
    (the five local variables of [getComponentClassDef]). *)
Record Specification : Type := {
  hardcodedNameComponent : option string;
  HardcodedJsComponent : JsValue;
  hardcodedJsFunction : JsValue;
  HardcodedFwComponent : JsValue;
  componentSelectorFunc : JsValue
}.

(** [if (name)] for a [string] that may be null or undefined. *)
Definition nameGiven (name : option string) : bool :=
  match name with
  | Some s => negb (String.eqb s "")
  | None => false
  end.

Definition msgTwice (propertyName : string) : string :=
  "ag-grid: you are trying to specify: " ++ propertyName ++ " twice as a component.".

Definition msgNoFramework (propertyName : string) : string :=
  "ag-grid: you are specifying a framework component but you are not using a framework version of ag-grid for : "
    ++ propertyName.

Definition msgSelectorAndComponent (propertyName : string) : string :=
  "ag-grid: you can't specify both, the selector and the component of ag-grid for : "
    ++ propertyName.

Section Factory.

Variable this : UserComponentFactory.

(** [private lookupFromRegisteredComponents(propertyName, componentNameOpt?)] *)
Definition lookupFromRegisteredComponents
    (propertyName : string) (componentNameOpt : option string)
  : option ComponentClassDef :=
  let componentName :=
    match componentNameOpt with Some n => n | None => propertyName end in
  match retrieve this componentName with
  | None => None
  | Some registeredComponent =>
      let registeredSource :=
        match rc_source registeredComponent with
        | RCS_REGISTERED => REGISTERED_BY_NAME
        | RCS_DEFAULT => DEFAULT
        end in
      match rc_type registeredComponent with
      | FRAMEWORK =>
          Some {| component := rc_component registeredComponent;
                  type := FRAMEWORK;
                  source := REGISTERED_BY_NAME;
                  paramsFromSelector := JNull |}
      | PLAIN_JAVASCRIPT =>
          if doesImplementIComponent this (rc_component registeredComponent)
          then Some {| component := rc_component registeredComponent;
                       type := PLAIN_JAVASCRIPT;
                       source := registeredSource;
                       paramsFromSelector := JNull |}
          else adaptFunction this propertyName (rc_component registeredComponent)
                 (rc_type registeredComponent) registeredSource
      end
  end.

(** [getComponentClassDef], first part: reading and classifying the entries
    of [definitionObject] for [propertyName]. *)
Definition readSpecification (definitionObject : JsValue) (propertyName : string)
  : Specification :=
  if notNull definitionObject then
    let componentPropertyValue := get definitionObject propertyName in
    let usingDefaultComponent :=
      match componentPropertyValue with JBool true => true | _ => false end in
    let '(name, jsComponent, jsFunction) :=
      if notNull componentPropertyValue && negb usingDefaultComponent then
        match componentPropertyValue with
        | JStr s => (Some s, JNull, JNull)
        | JBool _ => (None, JNull, JNull)
        | v =>
            if doesImplementIComponent this v
            then (None, v, JNull)
            else (None, JNull, v)
        end
      else (None, JNull, JNull) in
    {| hardcodedNameComponent := name;
       HardcodedJsComponent := jsComponent;
       hardcodedJsFunction := jsFunction;
       HardcodedFwComponent := get definitionObject (propertyName ++ "Framework");
       componentSelectorFunc := get definitionObject (propertyName ++ "Selector") |}
  else
    {| hardcodedNameComponent := None;
       HardcodedJsComponent := JNull;
       hardcodedJsFunction := JNull;
       HardcodedFwComponent := JNull;
       componentSelectorFunc := JUndefined |}.

(** [getComponentClassDef], second part: the three guards that throw. *)
Definition checkSpecification (spec : Specification) (propertyName : string)
  : Res unit :=
  let fw := truthy (HardcodedFwComponent spec) in
  if (truthy (HardcodedJsComponent spec) && fw)
     || (nameGiven (hardcodedNameComponent spec) && fw)
     || (truthy (hardcodedJsFunction spec) && fw)
  then Throw (Error (msgTwice propertyName))
  else if fw && negb (match frameworkComponentWrapper this with
                      | Some _ => true | None => false end)
  then Throw (Error (msgNoFramework propertyName))
  else if truthy (componentSelectorFunc spec)
          && (nameGiven (hardcodedNameComponent spec)
              || truthy (HardcodedJsComponent spec)
              || truthy (hardcodedJsFunction spec)
              || fw)
  then Throw (Error (msgSelectorAndComponent propertyName))
  else Ok tt.

(** The name handed to the registry. *)
Definition componentNameToUse
    (selectorResult : option ComponentSelectorResult)
    (hardcodedName defaultComponentName : option string) : option string :=
  if match selectorResult with
     | Some r => nameGiven (sel_component r)
     | None => false
     end
  then match selectorResult with Some r => sel_component r | None => None end
  else if nameGiven hardcodedName then hardcodedName
  else defaultComponentName.

(** [getComponentClassDef], third part: choosing the descriptor. *)
Definition chooseClassDef (spec : Specification) (propertyName : string)
    (params : JsValue) (defaultComponentName : option string)
  : Res (option ComponentClassDef) :=
  if truthy (HardcodedFwComponent spec) then
    Ok (Some {| type := FRAMEWORK;
                component := HardcodedFwComponent spec;
                source := HARDCODED;
                paramsFromSelector := JNull |})
  else if truthy (HardcodedJsComponent spec) then
    Ok (Some {| type := PLAIN_JAVASCRIPT;
                component := HardcodedJsComponent spec;
                source := HARDCODED;
                paramsFromSelector := JNull |})
  else if truthy (hardcodedJsFunction spec) then
    Ok (adaptFunction this propertyName (hardcodedJsFunction spec)
          PLAIN_JAVASCRIPT HARDCODED)
  else
    let selectorResult :=
      if truthy (componentSelectorFunc spec)
      then callSelector this (componentSelectorFunc spec) params
      else None in
    let name :=
      componentNameToUse selectorResult (hardcodedNameComponent spec)
        defaultComponentName in
    if negb (nameGiven name) then Ok None
    else
      match lookupFromRegisteredComponents propertyName name with
      | None => Throw (TypeError "registeredCompClassDef.type")
      | Some registeredCompClassDef =>
          Ok (Some {| type := type registeredCompClassDef;
                      component := component registeredCompClassDef;
                      source := source registeredCompClassDef;
                      paramsFromSelector :=
                        match selectorResult with
                        | Some r => sel_params r
                        | None => JNull
                        end |})
      end.

(** [public getComponentClassDef(definitionObject, propertyName, params = null,
    defaultComponentName?)] *)
Definition getComponentClassDef (definitionObject : JsValue) (propertyName : string)
    (params : JsValue) (defaultComponentName : option string)
  : Res (option ComponentClassDef) :=
  let params := orNull params in
  let spec := readSpecification definitionObject propertyName in
  match checkSpecification spec propertyName with
  | Throw e => Throw e
  | Ok _ => chooseClassDef spec propertyName params defaultComponentName
  end.

(** [public createFinalParams(definitionObject, propertyName, paramsFromGrid,
    paramsFromSelector = null)] *)
Definition createFinalParams (definitionObject : JsValue) (propertyName : string)
    (paramsFromGrid paramsFromSelector : JsValue) : Fields :=
  let paramsFromSelector := orNull paramsFromSelector in
  let res : Fields := [] in
  let res := mergeDeep res paramsFromGrid in
  let userParams :=
    if truthy definitionObject
    then get definitionObject (propertyName ++ "Params")
    else JNull in
  let res :=
    if notNull userParams then
      match typeof userParams with
      | T_function => mergeDeep res (callParams this userParams paramsFromGrid)
      | T_object => mergeDeep res userParams
      | _ => res
      end
    else res in
  let res := mergeDeep res paramsFromSelector in
  if negb (truthy (get (JObj res) "api"))
  then assign "api" (get (gridOptions this) "api") res
  else res.

Definition msgErrorCreating (propertyName : string)
    (defaultComponentName : option string) : string :=
  "Error creating component " ++ propertyName ++ "=>"
    ++ match defaultComponentName with Some n => n | None => "undefined" end.

(** [private createComponentInstance(holder, propertyName, paramsForSelector,
    defaultComponentName?, mandatory = true)] *)
Definition createComponentInstance (holder : JsValue) (propertyName : string)
    (paramsForSelector : JsValue) (defaultComponentName : option string)
    (mandatory : bool) : M (option (Component * JsValue)) :=
  componentToUse <-
    lift (getComponentClassDef holder propertyName paramsForSelector
            defaultComponentName) ;;
  let missing :=
    match componentToUse with
    | None => true
    | Some def => negb (truthy (component def))
    end in
  match componentToUse with
  | Some def =>
      if missing then
        (if mandatory
         then emit (EvConsoleError (msgErrorCreating propertyName defaultComponentName))
         else ret tt) ;;;
        ret None
      else
        match type def with
        | PLAIN_JAVASCRIPT =>
            emit (EvNew (component def)) ;;;
            ret (Some (construct this (component def), paramsFromSelector def))
        | FRAMEWORK =>
            let FrameworkComponentRaw := component def in
            let thisComponentConfig := retrieveMetadata this propertyName in
            match frameworkComponentWrapper this with
            | None => throw (TypeError "frameworkComponentWrapper.wrap")
            | Some wrapper =>
                match thisComponentConfig with
                | None => throw (TypeError "thisComponentConfig.mandatoryMethodList")
                | Some config =>
                    emit (EvWrap FrameworkComponentRaw (mandatoryMethodList config)
                            (optionalMethodList config) defaultComponentName) ;;;
                    ret (Some (wrap wrapper FrameworkComponentRaw
                                 (mandatoryMethodList config)
                                 (optionalMethodList config) defaultComponentName,
                               paramsFromSelector def))
                end
            end
        end
  | None =>
      (if mandatory
       then emit (EvConsoleError (msgErrorCreating propertyName defaultComponentName))
       else ret tt) ;;;
      ret None
  end.

(** [private initialiseComponent(component, agGridParams, customInitParamsCb?)] *)
Definition initialiseComponent (component : Component) (agGridParams : JsValue)
    (customInitParamsCb : option (JsValue -> Component -> JsValue))
  : M InitReturn :=
  emit (EvWireBean component) ;;;
  match init component with
  | None => ret InitVoid
  | Some initFn =>
      match customInitParamsCb with
      | None =>
          emit (EvInit component agGridParams) ;;;
          ret (initFn agGridParams)
      | Some cb =>
          emit (EvCustomInitParams agGridParams component) ;;;
          let customParams := cb agGridParams component in
          emit (EvInit component customParams) ;;;
          ret (initFn customParams)
      end
  end.

(** The two assignments [createUserComponent] makes on the merged params:
    [finalParams.agGridReact] and [finalParams.frameworkComponentWrapper]. *)
Definition addFrameworkParams (finalParams : Fields) : Fields :=
  let finalParams :=
    assign "agGridReact"
      (if truthy (getBean this "agGridReact")
       then cloneObject this (getBean this "agGridReact")
       else JObj [])
      finalParams in
  assign "frameworkComponentWrapper"
    (if truthy (getBean this "frameworkComponentWrapper")
     then getBean this "frameworkComponentWrapper"
     else JObj [])
    finalParams.

(** [public createUserComponent(definitionObject, paramsFromGrid, propertyName,
    defaultComponentName?, mandatory = true, customInitParamsCb?)];
    [None] is the [null] it returns when nothing was created. *)
Definition createUserComponent (definitionObject paramsFromGrid : JsValue)
    (propertyName : string) (defaultComponentName : option string)
    (mandatory : bool)
    (customInitParamsCb : option (JsValue -> Component -> JsValue))
  : M (option (Promise Component)) :=
  let definitionObject :=
    if negb (truthy definitionObject) then gridOptions this else definitionObject in
  componentAndParams <-
    createComponentInstance definitionObject propertyName paramsFromGrid
      defaultComponentName mandatory ;;
  match componentAndParams with
  | None => ret None
  | Some (componentInstance, paramsFromSelector) =>
      let finalParams :=
        createFinalParams definitionObject propertyName paramsFromGrid
          paramsFromSelector in
      let finalParams := addFrameworkParams finalParams in
      deferredInit <-
        initialiseComponent componentInstance (JObj finalParams)
          customInitParamsCb ;;
      match deferredInit with
      | InitVoid => ret (Some (PromiseOps.resolve componentInstance))
      | InitDeferred asPromise =>
          ret (Some (PromiseOps.map (fun _ => componentInstance) asPromise))
      end
  end.

(** [public createUserComponentFromConcreteClass(clazz, agGridParams,
    customInitParamsCb?)] *)
Definition createUserComponentFromConcreteClass (clazz agGridParams : JsValue)
    (customInitParamsCb : option (JsValue -> Component -> JsValue))
  : M Component :=
  emit (EvNew clazz) ;;;
  let internalComponent := construct this clazz in
  initialiseComponent internalComponent agGridParams customInitParamsCb ;;;
  ret internalComponent.

End Factory.

(** ** Notions used in the statements *)

(** The params [init] is called with. *)
Definition initParams (c : Component) (agGridParams : JsValue)
    (customInitParamsCb : option (JsValue -> Component -> JsValue)) : JsValue :=
  match customInitParamsCb with
  | Some cb => cb agGridParams c
  | None => agGridParams
  end.

(** What [initialiseComponent] returns. *)
Definition initOutcome (c : Component) (agGridParams : JsValue)
    (customInitParamsCb : option (JsValue -> Component -> JsValue)) : InitReturn :=
  match init c with
  | None => InitVoid
  | Some initFn => initFn (initParams c agGridParams customInitParamsCb)
  end.

(** The calls [initialiseComponent] makes. *)
Definition initEvents (c : Component) (agGridParams : JsValue)
    (customInitParamsCb : option (JsValue -> Component -> JsValue)) : list Event :=
  EvWireBean c ::
  match init c with
  | None => []
  | Some _ =>
      match customInitParamsCb with
      | None => [EvInit c agGridParams]
      | Some cb =>
          [EvCustomInitParams agGridParams c; EvInit c (cb agGridParams c)]
      end
  end.

(** The future [createUserComponent] builds from what [init] returned. *)
Definition futureOf (c : Component) (deferredInit : InitReturn) : Promise Component :=
  match deferredInit with
  | InitVoid => PromiseOps.resolve c
  | InitDeferred asPromise => PromiseOps.map (fun _ => c) asPromise
  end.

(** The holder [createUserComponent] works on. *)
Definition holderOrGridOptions (this : UserComponentFactory)
    (definitionObject : JsValue) : JsValue :=
  if negb (truthy definitionObject) then gridOptions this else definitionObject.

(** The params object [createUserComponent] passes on to initialisation. *)
Definition paramsForInit (this : UserComponentFactory)
    (definitionObject paramsFromGrid : JsValue) (propertyName : string)
    (paramsFromSelector : JsValue) : JsValue :=
  JObj (addFrameworkParams this
          (createFinalParams this (holderOrGridOptions this definitionObject)
             propertyName paramsFromGrid paramsFromSelector)).

(** The precedence in the words of the specification: the candidates of one
    resolution, listed from the strongest to the weakest. *)
Inductive Candidate : Type :=
| CFramework (ref : JsValue)
| CNativeInstance (clazz : JsValue)
| CNativeFunction (fn : JsValue)
| CRegistryName (name : option string).

Definition present (c : Candidate) : bool :=
  match c with
  | CFramework v | CNativeInstance v | CNativeFunction v => truthy v
  | CRegistryName name => nameGiven name
  end.

(** What the selector of a specification returns, if there is one. *)
Definition selectorResultOf (this : UserComponentFactory) (spec : Specification)
    (params : JsValue) : option ComponentSelectorResult :=
  if truthy (componentSelectorFunc spec)
  then callSelector this (componentSelectorFunc spec) params
  else None.

Definition candidates (this : UserComponentFactory) (spec : Specification)
    (params : JsValue) (defaultComponentName : option string) : list Candidate :=
  [ CFramework (HardcodedFwComponent spec);
    CNativeInstance (HardcodedJsComponent spec);
    CNativeFunction (hardcodedJsFunction spec);
    CRegistryName match selectorResultOf this spec params with
                  | Some r => sel_component r
                  | None => None
                  end;
    CRegistryName (hardcodedNameComponent spec);
    CRegistryName defaultComponentName ].

(** The first candidate that is present wins. *)
Definition winner (this : UserComponentFactory) (spec : Specification)
    (params : JsValue) (defaultComponentName : option string) : option Candidate :=
  find present (candidates this spec params defaultComponentName).

(** The descriptor that goes with a winner. *)
Definition descriptorOf (this : UserComponentFactory) (propertyName : string)
    (selectorResult : option ComponentSelectorResult) (w : option Candidate)
  : Res (option ComponentClassDef) :=
  match w with
  | None => Ok None
  | Some (CFramework ref) =>
      Ok (Some {| component := ref; type := FRAMEWORK; source := HARDCODED;
                  paramsFromSelector := JNull |})
  | Some (CNativeInstance clazz) =>
      Ok (Some {| component := clazz; type := PLAIN_JAVASCRIPT;
                  source := HARDCODED; paramsFromSelector := JNull |})
  | Some (CNativeFunction fn) =>
      Ok (adaptFunction this propertyName fn PLAIN_JAVASCRIPT HARDCODED)
  | Some (CRegistryName name) =>
      match lookupFromRegisteredComponents this propertyName name with
      | None => Throw (TypeError "registeredCompClassDef.type")
      | Some registered =>
          Ok (Some {| component := component registered;
                      type := type registered;
                      source := source registered;
                      paramsFromSelector :=
                        match selectorResult with
                        | Some r => sel_params r
                        | None => JNull
                        end |})
      end
  end.

(** A native hardcoded form is recorded from the value at [P]: a string that is
    not empty, or any other value that is neither a boolean nor falsy. *)
Definition hardcodedNative (v : JsValue) : bool :=
  match v with
  | JBool _ => false
  | _ => truthy v
  end.

(** The error classes of the specification, by what is thrown. *)
Definition ConflictingSpecification (propertyName : string) (e : Exception) : Prop :=
  e = Error (msgTwice propertyName)
  \/ e = Error (msgSelectorAndComponent propertyName).

Definition MissingFrameworkAdapter (propertyName : string) (e : Exception) : Prop :=
  e = Error (msgNoFramework propertyName).

Definition installed (this : UserComponentFactory) : bool :=
  match frameworkComponentWrapper this with Some _ => true | None => false end.

(** The value under a key after merging [newValue] over [old]. *)
Definition mergedValue (old : option JsValue) (newValue : JsValue) : JsValue :=
  match old, newValue with
  | Some (JObj oldValue), JObj _ => JObj (mergeDeep oldValue newValue)
  | _, _ => newValue
  end.

(** What the holder's [P + "Params"] entry contributes to the merge. *)
Definition holderParams (this : UserComponentFactory) (definitionObject : JsValue)
    (propertyName : string) (paramsFromGrid : JsValue) : JsValue :=
  let userParams :=
    if truthy definitionObject
    then get definitionObject (propertyName ++ "Params")
    else JNull in
  match userParams with
  | JFun _ => callParams this userParams paramsFromGrid
  | JObj _ => userParams
  | _ => JNull
  end.


(** The trace after the [console.error] of a mandatory component that is
    missing. *)
Definition reportMissing (mandatory : bool) (propertyName : string)
    (defaultComponentName : option string) (tr : list Event) : list Event :=
  if mandatory
  then tr ++ [EvConsoleError (msgErrorCreating propertyName defaultComponentName)]
  else tr.

(** The name resolution goes by when only names are in play: the string at
    [P] unless it is empty or [P] holds no string, and the default name then. *)
Definition nameAt (v : JsValue) (defaultComponentName : option string)
  : option string :=
  match v with
  | JStr s => if String.eqb s "" then defaultComponentName else Some s
  | _ => defaultComponentName
  end.

(** The provenance of a class found in the registry. *)
Definition provenance (rc : RegisteredComponent) : ComponentSource :=
  match rc_type rc, rc_source rc with
  | PLAIN_JAVASCRIPT, RCS_DEFAULT => DEFAULT
  | _, _ => REGISTERED_BY_NAME
  end.

(** ** A concrete factory, for running the embedding *)

Module Sample.

Definition plainClass : JsValue := JFun 1.
Definition frameworkClass : JsValue := JFun 2.
Definition selectorFunc : JsValue := JFun 3.
Definition paramsFunc : JsValue := JFun 4.
Definition deferredClass : JsValue := JFun 5.
Definition failingClass : JsValue := JFun 6.
Definition bareClass : JsValue := JFun 7.

(** Classes are told apart by their reference: 5 has an [init] that returns
    a future still in progress on deferred 9, 6 one whose future has failed,
    7 has no [init], every other class an [init] that returns nothing. *)
Definition instanceOf (clazz : JsValue) : Component :=
  match clazz with
  | JFun 5 => {| ident := 5; init := Some (fun _ => InitDeferred (InProgress 9 tt)) |}
  | JFun 6 => {| ident := 6; init := Some (fun _ => InitDeferred (Rejected "render failed")) |}
  | JFun 7 => {| ident := 7; init := None |}
  | JFun n => {| ident := n; init := Some (fun _ => InitVoid) |}
  | _ => {| ident := 0; init := None |}
  end.

Definition registry (name : string) : option RegisteredComponent :=
  if String.eqb name "agPlain" then
    Some {| rc_component := plainClass; rc_type := PLAIN_JAVASCRIPT;
            rc_source := RCS_DEFAULT |}
  else if String.eqb name "myFramework" then
    Some {| rc_component := frameworkClass; rc_type := FRAMEWORK;
            rc_source := RCS_REGISTERED |}
  else if String.eqb name "agDeferred" then
    Some {| rc_component := deferredClass; rc_type := PLAIN_JAVASCRIPT;
            rc_source := RCS_DEFAULT |}
  else None.

Definition wrapper : FrameworkComponentWrapper :=
  {| wrap := fun raw _ _ _ => instanceOf raw |}.

Definition factory (installed : option FrameworkComponentWrapper)
  : UserComponentFactory :=
  {| gridOptions := JObj [("api", JStr "gridApi")];
     getBean := fun _ => JUndefined;
     doesImplementIComponent :=
       fun v => match v with JFun 1 | JFun 5 | JFun 6 | JFun 7 => true | _ => false end;
     adaptFunction := fun _ fn t s =>
       Some {| component := fn; type := t; source := s; paramsFromSelector := JNull |};
     retrieveMetadata := fun _ =>
       Some {| mandatoryMethodList := ["getGui"]; optionalMethodList := ["destroy"] |};
     retrieve := registry;
     frameworkComponentWrapper := installed;
     construct := instanceOf;
     callSelector := fun _ _ =>
       Some {| sel_component := Some "agPlain"; sel_params := JObj [("a", JNum 3)] |};
     callParams := fun _ p => p;
     cloneObject := fun v => v |}.

Definition cellRenderer : string := "cellRenderer".

End Sample.

(** A second factory: the registry of [Sample] and its wrapper installed,
    with switches for the metadata store, the function adapter and the name
    the selector returns. *)
Module Fixture.

Definition factory (withMetadata withAdapter : bool) (selected : option string)
  : UserComponentFactory :=
  {| gridOptions := JObj [("api", JStr "gridApi");
                          ("cellRenderer", Sample.deferredClass)];
     getBean := fun _ => JUndefined;
     doesImplementIComponent :=
       fun v => match v with JFun 1 | JFun 5 | JFun 6 | JFun 7 => true | _ => false end;
     adaptFunction := fun _ fn t s =>
       if withAdapter
       then Some {| component := fn; type := t; source := s;
                    paramsFromSelector := JNull |}
       else None;
     retrieveMetadata := fun _ =>
       if withMetadata
       then Some {| mandatoryMethodList := ["getGui"];
                    optionalMethodList := ["destroy"] |}
       else None;
     retrieve := Sample.registry;
     frameworkComponentWrapper := Some Sample.wrapper;
     construct := Sample.instanceOf;
     callSelector := fun _ _ =>
       Some {| sel_component := selected;
               sel_params := JObj [("fromSelector", JBool true)] |};
     callParams := fun _ p => p;
     cloneObject := fun v => v |}.

End Fixture.

(** ** Basic facts: field lists and the monad *)

Lemma lookup_assign_same (k : string) (v : JsValue) (fs : Fields) :
  lookup k (assign k v fs) = Some v.
Proof.
  induction fs as [|[k' v'] tl IH]; simpl.
  - now rewrite String.eqb_refl.
  - destruct (String.eqb k k') eqn:E; simpl; rewrite E; auto.
Qed.

Lemma lookup_assign_other (k k' : string) (v : JsValue) (fs : Fields) :
  k <> k' -> lookup k (assign k' v fs) = lookup k fs.
Proof.
  intros Hne. induction fs as [|[k2 v2] tl IH]; simpl.
  - apply String.eqb_neq in Hne. now rewrite Hne.
  - destruct (String.eqb k' k2) eqn:E; simpl.
    + apply String.eqb_eq in E. subst k2.
      apply String.eqb_neq in Hne. now rewrite Hne.
    + destruct (String.eqb k k2); auto.
Qed.

Lemma lookup_remove_same (k : string) (fs : Fields) :
  lookup k (remove k fs) = None.
Proof.
  induction fs as [|[k' v'] tl IH]; simpl; auto.
  destruct (String.eqb k k') eqn:E; simpl; auto. now rewrite E.
Qed.

Lemma lookup_remove_other (k k' : string) (fs : Fields) :
  k <> k' -> lookup k (remove k' fs) = lookup k fs.
Proof.
  intros Hne. induction fs as [|[k2 v2] tl IH]; simpl; auto.
  destruct (String.eqb k' k2) eqn:E; simpl.
  - apply String.eqb_eq in E. subst k2.
    apply String.eqb_neq in Hne. now rewrite Hne.
  - now rewrite IH.
Qed.

Lemma length_append (a b : string) :
  String.length (a ++ b)%string = String.length a + String.length b.
Proof. induction a; simpl; auto. Qed.

(** A suffix makes a different property name. *)
Lemma append_suffix_neq (p s : string) : s <> "" -> (p ++ s)%string <> p.
Proof.
  intros Hs Heq. apply Hs.
  assert (L : String.length (p ++ s)%string = String.length p) by now rewrite Heq.
  rewrite length_append in L.
  destruct s; [reflexivity | simpl in L; lia].
Qed.

Ltac run_monad :=
  unfold run, bind, ret, throw, emit, lift; simpl.

(** ** Initialisation *)

Lemma initialiseComponent_spec (c : Component) (agGridParams : JsValue)
    (cb : option (JsValue -> Component -> JsValue)) (tr : list Event) :
  initialiseComponent c agGridParams cb tr
  = (Ok (initOutcome c agGridParams cb), tr ++ initEvents c agGridParams cb).
Proof.
  unfold initialiseComponent, initOutcome, initEvents, initParams.
  destruct (init c) as [f|]; [destruct cb as [g|]|]; run_monad;
    repeat rewrite <- app_assoc; reflexivity.
Qed.

Lemma createUserComponent_spec (this : UserComponentFactory)
    (definitionObject paramsFromGrid : JsValue) (propertyName : string)
    (defaultComponentName : option string) (mandatory : bool)
    (cb : option (JsValue -> Component -> JsValue)) (tr : list Event) :
  createUserComponent this definitionObject paramsFromGrid propertyName
    defaultComponentName mandatory cb tr
  = match createComponentInstance this
            (holderOrGridOptions this definitionObject) propertyName
            paramsFromGrid defaultComponentName mandatory tr with
    | (Throw e, tr1) => (Throw e, tr1)
    | (Ok None, tr1) => (Ok None, tr1)
    | (Ok (Some (c, paramsFromSelector)), tr1) =>
        let finalParams :=
          paramsForInit this definitionObject paramsFromGrid propertyName
            paramsFromSelector in
        (Ok (Some (futureOf c (initOutcome c finalParams cb))),
         tr1 ++ initEvents c finalParams cb)
    end.
Proof.
  unfold createUserComponent, holderOrGridOptions, paramsForInit.
  unfold bind at 1.
  destruct (createComponentInstance _ _ _ _ _ _ tr) as [[[[c ps]|]|e] tr1];
    try reflexivity.
  unfold bind. rewrite initialiseComponent_spec. cbv zeta.
  unfold holderOrGridOptions, futureOf.
  destruct (initOutcome _ _ _); reflexivity.
Qed.

(** C7. When [init] is there and a [customInitParamsCb] is supplied,
    [initialiseComponent] wires the instance, calls the callback with exactly
    the params it was given and the instance, and calls [init] with what the
    callback returned; with no callback [init] gets the params unchanged.
    Both creation calls go through it: [createUserComponentFromConcreteClass]
    with the caller's params and the instance it has just constructed,
    [createUserComponent] with the instance it has created and the final
    params object it has built for it. *)
Theorem customInitParamsCb_result_reaches_init
    (this : UserComponentFactory) (c : Component)
    (initFn : JsValue -> InitReturn) (params : JsValue)
    (cb : JsValue -> Component -> JsValue) (tr : list Event)
    (Hinit : init c = Some initFn) :
  initialiseComponent c params (Some cb) tr
    = (Ok (initFn (cb params c)),
       tr ++ [EvWireBean c; EvCustomInitParams params c; EvInit c (cb params c)])
  /\ initialiseComponent c params None tr
    = (Ok (initFn params), tr ++ [EvWireBean c; EvInit c params])
  /\ (forall clazz, construct this clazz = c ->
        createUserComponentFromConcreteClass this clazz params (Some cb) tr
          = (Ok c, tr ++ [EvNew clazz; EvWireBean c;
                          EvCustomInitParams params c; EvInit c (cb params c)])
        /\ createUserComponentFromConcreteClass this clazz params None tr
          = (Ok c, tr ++ [EvNew clazz; EvWireBean c; EvInit c params]))
  /\ (forall holder paramsFromGrid propertyName defaultName mandatory
             paramsFromSelector tr0,
        createComponentInstance this (holderOrGridOptions this holder)
          propertyName paramsFromGrid defaultName mandatory tr0
          = (Ok (Some (c, paramsFromSelector)), tr) ->
        let merged :=
          paramsForInit this holder paramsFromGrid propertyName
            paramsFromSelector in
        snd (createUserComponent this holder paramsFromGrid propertyName
               defaultName mandatory (Some cb) tr0)
          = tr ++ [EvWireBean c; EvCustomInitParams merged c;
                   EvInit c (cb merged c)]
        /\ snd (createUserComponent this holder paramsFromGrid propertyName
                  defaultName mandatory None tr0)
          = tr ++ [EvWireBean c; EvInit c merged]).
Proof.
  repeat split.
  - rewrite initialiseComponent_spec.
    unfold initOutcome, initEvents, initParams. now rewrite Hinit.
  - rewrite initialiseComponent_spec.
    unfold initOutcome, initEvents, initParams. now rewrite Hinit.
  - subst c. unfold createUserComponentFromConcreteClass, bind at 1, emit.
    unfold bind. rewrite initialiseComponent_spec.
    unfold initEvents, ret. rewrite Hinit, <- app_assoc. reflexivity.
  - subst c. unfold createUserComponentFromConcreteClass, bind at 1, emit.
    unfold bind. rewrite initialiseComponent_spec.
    unfold initEvents, ret. rewrite Hinit, <- app_assoc. reflexivity.
  - rewrite createUserComponent_spec, H. cbv zeta. simpl.
    unfold initEvents. now rewrite Hinit.
  - rewrite createUserComponent_spec, H. cbv zeta. simpl.
    unfold initEvents. now rewrite Hinit.
Qed.

Lemma customInitParamsCb_result_reaches_init_witness :
  let c := Sample.instanceOf Sample.plainClass in
  let params := JObj [("value", JNum 1)] in
  let cb := fun (p : JsValue) (_ : Component) => JObj [("custom", p)] in
  initialiseComponent c params (Some cb) []
  = (Ok InitVoid,
     [EvWireBean c; EvCustomInitParams params c;
      EvInit c (JObj [("custom", JObj [("value", JNum 1)])])]).
Proof.
  exact (proj1 (customInitParamsCb_result_reaches_init
                  (Sample.factory None) (Sample.instanceOf Sample.plainClass)
                  (fun _ => InitVoid) (JObj [("value", JNum 1)])
                  (fun p _ => JObj [("custom", p)]) [] eq_refl)).
Defined.

(** C10. [createUserComponentFromConcreteClass] returns the instance it has
    constructed, whatever class, params and callback it is given and whatever
    [init] hands back: the value [init] returns (nothing, or a future that is
    resolved, in progress or failed) is not part of the result.  The calls it
    makes are the constructor followed by those of the initialisation. *)
Theorem createUserComponentFromConcreteClass_returns_instance
    (this : UserComponentFactory) (clazz agGridParams : JsValue)
    (cb : option (JsValue -> Component -> JsValue)) (tr : list Event) :
  createUserComponentFromConcreteClass this clazz agGridParams cb tr
  = (Ok (construct this clazz),
     tr ++ EvNew clazz :: initEvents (construct this clazz) agGridParams cb).
Proof.
  unfold createUserComponentFromConcreteClass, bind at 1, emit.
  unfold bind. rewrite initialiseComponent_spec. unfold ret.
  now rewrite <- app_assoc.
Qed.

(** The same class with a failing deferred [init], through both creation
    calls: the concrete-class call hands back the instance, the general call
    a failed future. *)
Example failing_init_through_both_calls :
  let this := Sample.factory None in
  fst (run (createUserComponentFromConcreteClass this Sample.failingClass
              (JObj []) None))
    = Ok (Sample.instanceOf Sample.failingClass)
  /\ fst (run (createUserComponent this
                 (JObj [(Sample.cellRenderer, Sample.failingClass)]) (JObj [])
                 Sample.cellRenderer None true None))
    = Ok (Some (Rejected "render failed")).
Proof. split; reflexivity. Qed.

(** C6. Once [createComponentInstance] has produced an instance,
    [createUserComponent] returns a future.  For an instance without [init],
    and for an [init] that returns nothing, the future is already resolved
    with the instance.  For an [init] that returns a deferred result the
    future is that result mapped to the instance: in progress on the same
    deferred while that one is, and resolved with the instance once it has
    completed. *)
Theorem createUserComponent_returns_future
    (this : UserComponentFactory) (holder paramsFromGrid : JsValue)
    (propertyName : string) (defaultName : option string) (mandatory : bool)
    (cb : option (JsValue -> Component -> JsValue))
    (tr0 tr1 : list Event) (c : Component) (paramsFromSelector : JsValue)
    (Hcreated :
       createComponentInstance this (holderOrGridOptions this holder)
         propertyName paramsFromGrid defaultName mandatory tr0
       = (Ok (Some (c, paramsFromSelector)), tr1)) :
  let merged :=
    paramsForInit this holder paramsFromGrid propertyName paramsFromSelector in
  exists future : Promise Component,
    fst (createUserComponent this holder paramsFromGrid propertyName
           defaultName mandatory cb tr0) = Ok (Some future)
    /\ (init c = None -> future = Resolved c)
    /\ (forall initFn, init c = Some initFn ->
          initFn (initParams c merged cb) = InitVoid -> future = Resolved c)
    /\ (forall initFn deferred, init c = Some initFn ->
          initFn (initParams c merged cb) = InitDeferred deferred ->
          future = PromiseOps.map (fun _ => c) deferred
          /\ (deferred = Resolved tt -> future = Resolved c)
          /\ (forall src, deferred = InProgress src tt ->
                future = InProgress src c
                /\ PromiseOps.settle src PromiseOps.Completed future = Resolved c)).
Proof.
  intros merged.
  exists (futureOf c (initOutcome c merged cb)).
  split; [| split; [| split]].
  - rewrite createUserComponent_spec, Hcreated. reflexivity.
  - intros Hnone. unfold initOutcome. now rewrite Hnone.
  - intros f Hf Hvoid. unfold initOutcome. now rewrite Hf, Hvoid.
  - intros f d Hf Hd. unfold initOutcome. rewrite Hf, Hd. simpl.
    split; [reflexivity | split].
    + intros ->. reflexivity.
    + intros src ->. simpl. now rewrite Nat.eqb_refl.
Qed.

Lemma createUserComponent_returns_future_witness :
  let this := Sample.factory None in
  let holder := JObj [(Sample.cellRenderer, Sample.deferredClass)] in
  exists future : Promise Component,
    fst (createUserComponent this holder (JObj []) Sample.cellRenderer None
           true None []) = Ok (Some future)
    /\ future = InProgress 9 (Sample.instanceOf Sample.deferredClass)
    /\ PromiseOps.settle 9 PromiseOps.Completed future
       = Resolved (Sample.instanceOf Sample.deferredClass).
Proof.
  destruct (createUserComponent_returns_future
              (Sample.factory None)
              (JObj [(Sample.cellRenderer, Sample.deferredClass)]) (JObj [])
              Sample.cellRenderer None true None [] [EvNew Sample.deferredClass]
              (Sample.instanceOf Sample.deferredClass) JNull eq_refl)
    as [future [Hret [_ [_ Hdeferred]]]].
  exists future. split; [exact Hret |].
  destruct (Hdeferred (fun _ => InitDeferred (InProgress 9 tt)) (InProgress 9 tt)
              eq_refl eq_refl) as [_ [_ Hprogress]].
  exact (Hprogress 9 eq_refl).
Defined.

(** [createUserComponent] returns [null] exactly when nothing was created. *)
Lemma createUserComponent_none_iff
    (this : UserComponentFactory) (holder paramsFromGrid : JsValue)
    (propertyName : string) (defaultName : option string) (mandatory : bool)
    (cb : option (JsValue -> Component -> JsValue)) (tr0 : list Event) :
  fst (createUserComponent this holder paramsFromGrid propertyName defaultName
         mandatory cb tr0) = Ok None
  <-> fst (createComponentInstance this (holderOrGridOptions this holder)
             propertyName paramsFromGrid defaultName mandatory tr0) = Ok None.
Proof.
  rewrite createUserComponent_spec.
  destruct (createComponentInstance _ _ _ _ _ _ tr0) as [[[[c ps]|]|e] tr1];
    simpl; split; intros H; try discriminate; auto.
Qed.

(** ** The two framework keys *)

Lemma lookup_addFrameworkParams_agGridReact
    (this : UserComponentFactory) (finalParams : Fields) :
  lookup "agGridReact" (addFrameworkParams this finalParams)
  = Some (if truthy (getBean this "agGridReact")
          then cloneObject this (getBean this "agGridReact")
          else JObj []).
Proof.
  unfold addFrameworkParams.
  rewrite lookup_assign_other by discriminate.
  apply lookup_assign_same.
Qed.

Lemma lookup_addFrameworkParams_wrapper
    (this : UserComponentFactory) (finalParams : Fields) :
  lookup "frameworkComponentWrapper" (addFrameworkParams this finalParams)
  = Some (if truthy (getBean this "frameworkComponentWrapper")
          then getBean this "frameworkComponentWrapper"
          else JObj []).
Proof. unfold addFrameworkParams. apply lookup_assign_same. Qed.

Lemma lookup_addFrameworkParams_other
    (this : UserComponentFactory) (finalParams : Fields) (k : string) :
  k <> "agGridReact" -> k <> "frameworkComponentWrapper" ->
  lookup k (addFrameworkParams this finalParams) = lookup k finalParams.
Proof.
  intros H1 H2. unfold addFrameworkParams.
  now rewrite !lookup_assign_other.
Qed.

(** C9. The params object [createUserComponent] passes on to initialisation
    is the result of [createFinalParams] with two keys assigned on top:
    [agGridReact], a clone of the bean of that name when there is one and an
    empty object otherwise, and [frameworkComponentWrapper], the bean of that
    name or an empty object.  Both keys are there for every holder and every
    params source; every other key is as [createFinalParams] left it.  It is
    this object that the customisation callback and [init] are called with. *)
Theorem createUserComponent_passes_framework_keys
    (this : UserComponentFactory) (holder paramsFromGrid : JsValue)
    (propertyName : string) (paramsFromSelector : JsValue) :
  let merged :=
    createFinalParams this (holderOrGridOptions this holder) propertyName
      paramsFromGrid paramsFromSelector in
  let passed := addFrameworkParams this merged in
  hasKey passed "agGridReact" = true
  /\ hasKey passed "frameworkComponentWrapper" = true
  /\ get (JObj passed) "agGridReact"
     = (if truthy (getBean this "agGridReact")
        then cloneObject this (getBean this "agGridReact")
        else JObj [])
  /\ get (JObj passed) "frameworkComponentWrapper"
     = (if truthy (getBean this "frameworkComponentWrapper")
        then getBean this "frameworkComponentWrapper"
        else JObj [])
  /\ (forall k, k <> "agGridReact" -> k <> "frameworkComponentWrapper" ->
        lookup k passed = lookup k merged)
  /\ (forall defaultName mandatory cb tr0 tr1 c,
        createComponentInstance this (holderOrGridOptions this holder)
          propertyName paramsFromGrid defaultName mandatory tr0
        = (Ok (Some (c, paramsFromSelector)), tr1) ->
        snd (createUserComponent this holder paramsFromGrid propertyName
               defaultName mandatory cb tr0)
        = tr1 ++ EvWireBean c ::
            match init c with
            | None => []
            | Some _ =>
                match cb with
                | None => [EvInit c (JObj passed)]
                | Some f =>
                    [EvCustomInitParams (JObj passed) c;
                     EvInit c (f (JObj passed) c)]
                end
            end).
Proof.
  intros merged passed. subst passed.
  unfold hasKey, get.
  rewrite lookup_addFrameworkParams_agGridReact,
          lookup_addFrameworkParams_wrapper.
  repeat split.
  - intros k H1 H2. now apply lookup_addFrameworkParams_other.
  - intros d m cb tr0 tr1 c H.
    rewrite createUserComponent_spec, H. reflexivity.
Qed.

Lemma createUserComponent_passes_framework_keys_witness :
  let this := Sample.factory None in
  let holder := JObj [(Sample.cellRenderer, Sample.plainClass)] in
  let c := Sample.instanceOf Sample.plainClass in
  let passed :=
    JObj [("api", JStr "gridApi"); ("agGridReact", JObj []);
          ("frameworkComponentWrapper", JObj [])] in
  snd (createUserComponent this holder JNull Sample.cellRenderer None true
         (Some (fun p _ => p)) [])
  = [EvNew Sample.plainClass; EvWireBean c; EvCustomInitParams passed c;
     EvInit c passed].
Proof.
  pose proof (createUserComponent_passes_framework_keys (Sample.factory None)
                (JObj [(Sample.cellRenderer, Sample.plainClass)]) JNull
                Sample.cellRenderer JNull) as H.
  cbv zeta in H.
  destruct H as [_ [_ [_ [_ [_ Hcalls]]]]].
  exact (Hcalls None true (Some (fun p _ => p)) [] [EvNew Sample.plainClass]
           (Sample.instanceOf Sample.plainClass) eq_refl).
Defined.

(** With no params anywhere and no such beans, [createFinalParams] yields
    only the injected [api], and initialisation still sees the two keys. *)
Example framework_keys_without_any_source :
  let this := Sample.factory None in
  let holder := JObj [(Sample.cellRenderer, Sample.plainClass)] in
  createFinalParams this holder Sample.cellRenderer JNull JNull
    = [("api", JStr "gridApi")]
  /\ run (createUserComponent this holder JNull Sample.cellRenderer None true None)
    = (Ok (Some (Resolved (Sample.instanceOf Sample.plainClass))),
       [EvNew Sample.plainClass;
        EvWireBean (Sample.instanceOf Sample.plainClass);
        EvInit (Sample.instanceOf Sample.plainClass)
          (JObj [("api", JStr "gridApi"); ("agGridReact", JObj []);
                 ("frameworkComponentWrapper", JObj [])])]).
Proof. split; reflexivity. Qed.

(** ** Resolution: precedence *)

Lemma chooseClassDef_precedence (this : UserComponentFactory)
    (spec : Specification) (propertyName : string) (params : JsValue)
    (defaultComponentName : option string) :
  chooseClassDef this spec propertyName params defaultComponentName
  = descriptorOf this propertyName (selectorResultOf this spec params)
      (winner this spec params defaultComponentName).
Proof.
  unfold chooseClassDef, winner, candidates. simpl.
  destruct (truthy (HardcodedFwComponent spec)); [reflexivity |].
  destruct (truthy (HardcodedJsComponent spec)); [reflexivity |].
  destruct (truthy (hardcodedJsFunction spec)); [reflexivity |].
  fold (selectorResultOf this spec params).
  unfold componentNameToUse.
  destruct (selectorResultOf this spec params) as [r|]; simpl;
    repeat match goal with
           | |- context [nameGiven ?n] =>
               let H := fresh "Hgiven" in
               destruct (nameGiven n) eqn:H; simpl; try rewrite H
           end;
    try congruence; reflexivity.
Qed.

(** C1. The descriptor [getComponentClassDef] returns is the one of the first
    present candidate in this order: the hardcoded framework reference, the
    hardcoded native instance, the hardcoded native function (adapted), then a
    registry lookup under the name the selector returned, under the hardcoded
    name, under the default name.  The choice itself ([chooseClassDef]) follows
    this order for every combination of entries; [getComponentClassDef] makes
    it whenever its three guards let the specification through. *)
Theorem getComponentClassDef_precedence (this : UserComponentFactory)
    (holder : JsValue) (propertyName : string) (params : JsValue)
    (defaultComponentName : option string) :
  (forall spec : Specification,
     chooseClassDef this spec propertyName params defaultComponentName
     = descriptorOf this propertyName (selectorResultOf this spec params)
         (find present (candidates this spec params defaultComponentName)))
  /\ getComponentClassDef this holder propertyName params defaultComponentName
     = let spec := readSpecification this holder propertyName in
       match checkSpecification this spec propertyName with
       | Throw e => Throw e
       | Ok _ =>
           descriptorOf this propertyName
             (selectorResultOf this spec (orNull params))
             (find present
                (candidates this spec (orNull params) defaultComponentName))
       end.
Proof.
  split.
  - intros spec. apply chooseClassDef_precedence.
  - unfold getComponentClassDef. cbv zeta.
    destruct (checkSpecification _ _ _); [| reflexivity].
    apply chooseClassDef_precedence.
Qed.

(** The order is there even for entries the guards never let through
    together: with a framework reference and a native instance both recorded,
    the choice is the framework reference. *)
Example framework_before_native_instance :
  chooseClassDef (Sample.factory None)
    {| hardcodedNameComponent := Some "agPlain";
       HardcodedJsComponent := Sample.plainClass;
       hardcodedJsFunction := JNull;
       HardcodedFwComponent := Sample.frameworkClass;
       componentSelectorFunc := JUndefined |}
    "cellRenderer" JNull (Some "agDeferred")
  = Ok (Some {| component := Sample.frameworkClass; type := FRAMEWORK;
                source := HARDCODED; paramsFromSelector := JNull |}).
Proof. reflexivity. Qed.

(** A selector that names a registered component: the registry entry under
    that name is returned, with the params the selector supplied; the default
    name is not looked up. *)
Example selector_name_before_default_name :
  let this := Sample.factory None in
  getComponentClassDef this
    (JObj [("cellRendererSelector", Sample.selectorFunc)]) "cellRenderer"
    JNull (Some "agDeferred")
  = Ok (Some {| component := Sample.plainClass; type := PLAIN_JAVASCRIPT;
                source := DEFAULT;
                paramsFromSelector := JObj [("a", JNum 3)] |}).
Proof. reflexivity. Qed.

(** ** Resolution: classification *)

Lemma readSpecification_native (this : UserComponentFactory)
    (holder : JsValue) (propertyName : string) :
  let spec := readSpecification this holder propertyName in
  nameGiven (hardcodedNameComponent spec)
    || truthy (HardcodedJsComponent spec)
    || truthy (hardcodedJsFunction spec)
  = hardcodedNative (get holder propertyName).
Proof.
  unfold readSpecification.
  destruct (notNull holder) eqn:Hholder.
  - destruct (get holder propertyName) as [| |[|]|n|s|fs|r] eqn:Hv;
      simpl; try reflexivity.
    + destruct (doesImplementIComponent this (JNum n)); simpl;
        now rewrite ?orb_false_r.
    + now rewrite !orb_false_r.
    + destruct (doesImplementIComponent this (JObj fs)); reflexivity.
    + destruct (doesImplementIComponent this (JFun r)); reflexivity.
  - destruct holder; try discriminate; reflexivity.
Qed.

Lemma readSpecification_framework (this : UserComponentFactory)
    (holder : JsValue) (propertyName : string) :
  truthy (HardcodedFwComponent (readSpecification this holder propertyName))
  = truthy (get holder (propertyName ++ "Framework")).
Proof.
  unfold readSpecification.
  destruct (notNull holder) eqn:Hholder.
  - destruct (notNull (get holder propertyName) && _);
      [destruct (get holder propertyName);
       try destruct (doesImplementIComponent this _) |]; reflexivity.
  - destruct holder; try discriminate; reflexivity.
Qed.

Lemma readSpecification_selector (this : UserComponentFactory)
    (holder : JsValue) (propertyName : string) :
  truthy (componentSelectorFunc (readSpecification this holder propertyName))
  = truthy (get holder (propertyName ++ "Selector")).
Proof.
  unfold readSpecification.
  destruct (notNull holder) eqn:Hholder.
  - destruct (notNull (get holder propertyName) && _);
      [destruct (get holder propertyName);
       try destruct (doesImplementIComponent this _) |]; reflexivity.
  - destruct holder; try discriminate; reflexivity.
Qed.

(** The specification read from a holder whose value at [P] is ignored. *)
Lemma readSpecification_ignored (this : UserComponentFactory)
    (holder : JsValue) (propertyName : string) :
  notNull holder = true ->
  get holder propertyName = JBool true \/ get holder propertyName = JUndefined ->
  readSpecification this holder propertyName
  = {| hardcodedNameComponent := None;
       HardcodedJsComponent := JNull;
       hardcodedJsFunction := JNull;
       HardcodedFwComponent := get holder (propertyName ++ "Framework");
       componentSelectorFunc := get holder (propertyName ++ "Selector") |}.
Proof.
  intros Hholder Hv. unfold readSpecification. rewrite Hholder.
  destruct Hv as [-> | ->]; reflexivity.
Qed.

(** C8. A holder whose value at [P] is the boolean [true] has no hardcoded
    name, native instance or native function recorded from it; resolution on
    it gives what it gives on any holder that leaves [P] unset and carries the
    same [P + "Framework"] and [P + "Selector"] entries, in particular on the
    same holder with [P] deleted; and with no framework
    reference it is the registry lookup under the selector's name or else the
    default name. *)
Theorem true_means_use_default (this : UserComponentFactory)
    (holder : JsValue) (propertyName : string) (params : JsValue)
    (defaultComponentName : option string)
    (Htrue : get holder propertyName = JBool true) :
  let spec := readSpecification this holder propertyName in
  (hardcodedNameComponent spec = None
   /\ HardcodedJsComponent spec = JNull
   /\ hardcodedJsFunction spec = JNull)
  /\ (forall unset : JsValue,
        notNull unset = true ->
        get unset propertyName = JUndefined ->
        get unset (propertyName ++ "Framework")
          = get holder (propertyName ++ "Framework") ->
        get unset (propertyName ++ "Selector")
          = get holder (propertyName ++ "Selector") ->
        getComponentClassDef this holder propertyName params defaultComponentName
        = getComponentClassDef this unset propertyName params defaultComponentName)
  /\ (forall fs : Fields,
        holder = JObj fs ->
        getComponentClassDef this holder propertyName params defaultComponentName
        = getComponentClassDef this (JObj (remove propertyName fs)) propertyName
            params defaultComponentName)
  /\ (truthy (get holder (propertyName ++ "Framework")) = false ->
      getComponentClassDef this holder propertyName params defaultComponentName
      = let selectorResult := selectorResultOf this spec (orNull params) in
        descriptorOf this propertyName selectorResult
          (find present
             [CRegistryName match selectorResult with
                            | Some r => sel_component r
                            | None => None
                            end;
              CRegistryName defaultComponentName])).
Proof.
  assert (Hholder : notNull holder = true).
  { destruct holder; try discriminate; reflexivity. }
  assert (Hunset : forall unset : JsValue,
    notNull unset = true ->
    get unset propertyName = JUndefined ->
    get unset (propertyName ++ "Framework")
      = get holder (propertyName ++ "Framework") ->
    get unset (propertyName ++ "Selector")
      = get holder (propertyName ++ "Selector") ->
    getComponentClassDef this holder propertyName params defaultComponentName
    = getComponentClassDef this unset propertyName params defaultComponentName).
  { intros unset Hnn Hv Hfw Hsel.
    unfold getComponentClassDef. cbv zeta.
    rewrite (readSpecification_ignored this holder propertyName Hholder
               (or_introl Htrue)).
    rewrite (readSpecification_ignored this unset propertyName Hnn
               (or_intror Hv)).
    now rewrite Hfw, Hsel. }
  intros spec. subst spec.
  rewrite (readSpecification_ignored this holder propertyName Hholder (or_introl Htrue)).
  split; [now repeat split | split; [exact Hunset | split]].
  - intros fs ->. apply Hunset; simpl.
    + reflexivity.
    + now rewrite lookup_remove_same.
    + rewrite lookup_remove_other; [reflexivity |].
      apply append_suffix_neq. discriminate.
    + rewrite lookup_remove_other; [reflexivity |].
      apply append_suffix_neq. discriminate.
  - intros Hfw.
    unfold getComponentClassDef. cbv zeta.
    rewrite (readSpecification_ignored this holder propertyName Hholder
               (or_introl Htrue)).
    unfold checkSpecification. simpl. rewrite Hfw. simpl.
    rewrite ?orb_false_r, ?andb_false_r.
    rewrite chooseClassDef_precedence. unfold winner, candidates. simpl.
    rewrite Hfw. reflexivity.
Qed.

Lemma true_means_use_default_witness :
  let this := Sample.factory None in
  let holder := JObj [("filter", JBool true)] in
  getComponentClassDef this holder "filter" JNull (Some "agPlain")
  = getComponentClassDef this (JObj []) "filter" JNull (Some "agPlain")
  /\ getComponentClassDef this holder "filter" JNull (Some "agPlain")
     = Ok (Some {| component := Sample.plainClass; type := PLAIN_JAVASCRIPT;
                   source := DEFAULT; paramsFromSelector := JNull |}).
Proof.
  split.
  - exact (proj1 (proj2 (true_means_use_default (Sample.factory None)
                           (JObj [("filter", JBool true)]) "filter" JNull
                           (Some "agPlain") eq_refl))
             (JObj []) eq_refl eq_refl eq_refl eq_refl).
  - exact (proj2 (proj2 (proj2 (true_means_use_default (Sample.factory None)
                                  (JObj [("filter", JBool true)]) "filter" JNull
                                  (Some "agPlain") eq_refl)))
             eq_refl).
Defined.

(** ** Resolution: the guards *)

Lemma missing_adapter_is_no_conflict (propertyName : string) (e : Exception) :
  MissingFrameworkAdapter propertyName e ->
  ~ ConflictingSpecification propertyName e.
Proof.
  unfold MissingFrameworkAdapter, ConflictingSpecification.
  intros -> [H | H]; inversion H.
Qed.

(** The three guards in terms of the holder's entries. *)
Lemma checkSpecification_holder (this : UserComponentFactory)
    (holder : JsValue) (propertyName : string) :
  checkSpecification this (readSpecification this holder propertyName) propertyName
  = let native := hardcodedNative (get holder propertyName) in
    let fw := truthy (get holder (propertyName ++ "Framework")) in
    let sel := truthy (get holder (propertyName ++ "Selector")) in
    if native && fw then Throw (Error (msgTwice propertyName))
    else if fw && negb (installed this)
    then Throw (Error (msgNoFramework propertyName))
    else if sel && (native || fw)
    then Throw (Error (msgSelectorAndComponent propertyName))
    else Ok tt.
Proof.
  unfold checkSpecification. fold (installed this).
  rewrite readSpecification_framework, readSpecification_selector.
  pose proof (readSpecification_native this holder propertyName) as Hnative.
  cbv zeta in *.
  destruct (nameGiven _), (truthy (HardcodedJsComponent _)),
           (truthy (hardcodedJsFunction _));
    simpl in Hnative; rewrite <- Hnative;
    destruct (truthy (get holder (propertyName ++ "Framework"))),
             (truthy (get holder (propertyName ++ "Selector")));
    reflexivity.
Qed.

(** A resolution that throws leaves the trace as it was. *)
Lemma failed_resolution_creates_nothing (this : UserComponentFactory)
    (holder paramsFromGrid : JsValue) (propertyName : string)
    (defaultName : option string) (mandatory : bool)
    (cb : option (JsValue -> Component -> JsValue)) (tr : list Event)
    (e : Exception) :
  getComponentClassDef this (holderOrGridOptions this holder) propertyName
    paramsFromGrid defaultName = Throw e ->
  createComponentInstance this (holderOrGridOptions this holder) propertyName
    paramsFromGrid defaultName mandatory tr = (Throw e, tr)
  /\ createUserComponent this holder paramsFromGrid propertyName defaultName
       mandatory cb tr = (Throw e, tr).
Proof.
  intros Hthrow.
  assert (Hinst :
    createComponentInstance this (holderOrGridOptions this holder) propertyName
      paramsFromGrid defaultName mandatory tr = (Throw e, tr)).
  { unfold createComponentInstance, bind at 1, lift. now rewrite Hthrow. }
  split; [exact Hinst |].
  rewrite createUserComponent_spec. now rewrite Hinst.
Qed.

(** C3, as amended.  Whenever a framework reference at [P + "Framework"]
    stands next to a native hardcoded form at [P] (a string that is not empty,
    a native instance or a native function), and whenever a selector at
    [P + "Selector"] stands next to any hardcoded form, resolution throws and
    nothing is created: the trace of the creation call is unchanged.  What is
    thrown is a ConflictingSpecification error, save in one case: a selector
    next to a framework reference alone, with no framework wrapper installed,
    is stopped by the guard on the wrapper, which comes before the guard on
    the selector, and the error is MissingFrameworkAdapter. *)
Theorem conflicting_specification_throws (this : UserComponentFactory)
    (holder paramsFromGrid : JsValue) (propertyName : string)
    (defaultName : option string) (mandatory : bool)
    (cb : option (JsValue -> Component -> JsValue)) (tr : list Event)
    (Hconflict :
       let native := hardcodedNative (get holder propertyName) in
       let fw := truthy (get holder (propertyName ++ "Framework")) in
       let sel := truthy (get holder (propertyName ++ "Selector")) in
       (native && fw) || (sel && (native || fw)) = true) :
  exists e : Exception,
    getComponentClassDef this holder propertyName paramsFromGrid defaultName
      = Throw e
    /\ createUserComponent this holder paramsFromGrid propertyName defaultName
         mandatory cb tr = (Throw e, tr)
    /\ (if negb (hardcodedNative (get holder propertyName))
           && negb (installed this)
        then MissingFrameworkAdapter propertyName e
        else ConflictingSpecification propertyName e).
Proof.
  cbv zeta in Hconflict.
  assert (Hholder : holderOrGridOptions this holder = holder).
  { destruct holder; try discriminate Hconflict. reflexivity. }
  assert (Hguard :
    exists e,
      checkSpecification this (readSpecification this holder propertyName)
        propertyName = Throw e
      /\ (if negb (hardcodedNative (get holder propertyName))
             && negb (installed this)
          then MissingFrameworkAdapter propertyName e
          else ConflictingSpecification propertyName e)).
  { rewrite checkSpecification_holder. cbv zeta.
    unfold MissingFrameworkAdapter, ConflictingSpecification.
    destruct (hardcodedNative (get holder propertyName)),
             (truthy (get holder (propertyName ++ "Framework"))),
             (truthy (get holder (propertyName ++ "Selector")));
      try discriminate Hconflict; simpl;
      try destruct (installed this); simpl; eauto. }
  destruct Hguard as [e [Hcheck Hkind]].
  assert (Hthrow :
    getComponentClassDef this holder propertyName paramsFromGrid defaultName
    = Throw e).
  { unfold getComponentClassDef. cbv zeta. now rewrite Hcheck. }
  exists e. split; [exact Hthrow | split; [| exact Hkind]].
  apply failed_resolution_creates_nothing. now rewrite Hholder.
Qed.

Lemma conflicting_specification_throws_witness :
  let this := Sample.factory None in
  let holder :=
    JObj [("cellRenderer", JStr "agPlain");
          ("cellRendererFramework", Sample.frameworkClass)] in
  exists e : Exception,
    getComponentClassDef this holder "cellRenderer" JNull None = Throw e
    /\ createUserComponent this holder JNull "cellRenderer" None true None []
       = (Throw e, [])
    /\ ConflictingSpecification "cellRenderer" e.
Proof.
  exact (conflicting_specification_throws (Sample.factory None)
           (JObj [("cellRenderer", JStr "agPlain");
                  ("cellRendererFramework", Sample.frameworkClass)])
           JNull "cellRenderer" None true None [] eq_refl).
Defined.

(** C3 as stated fails: a selector next to a framework reference, with no
    framework wrapper installed, does not end in a ConflictingSpecification
    error; the error thrown is the one for the missing wrapper. *)
Lemma selector_with_framework_counterexample :
  let this := Sample.factory None in
  let holder :=
    JObj [("cellRendererFramework", Sample.frameworkClass);
          ("cellRendererSelector", Sample.selectorFunc)] in
  truthy (get holder "cellRendererFramework") = true
  /\ truthy (get holder "cellRendererSelector") = true
  /\ getComponentClassDef this holder "cellRenderer" JNull None
     = Throw (Error (msgNoFramework "cellRenderer"))
  /\ ~ ConflictingSpecification "cellRenderer"
         (Error (msgNoFramework "cellRenderer")).
Proof.
  repeat split.
  apply missing_adapter_is_no_conflict. reflexivity.
Qed.

(** An empty string at [P] is no name: next to a framework reference it raises
    no conflict, and the framework reference is what resolution returns. *)
Example empty_name_is_no_hardcoded_form :
  let this := Sample.factory (Some Sample.wrapper) in
  let holder :=
    JObj [("cellRenderer", JStr "");
          ("cellRendererFramework", Sample.frameworkClass)] in
  getComponentClassDef this holder "cellRenderer" JNull None
  = Ok (Some {| component := Sample.frameworkClass; type := FRAMEWORK;
                source := HARDCODED; paramsFromSelector := JNull |}).
Proof. reflexivity. Qed.

(** ** Resolution: names the registry does not know *)

(** With nothing specified and no name to look up, resolution returns none;
    with [mandatory = false] the creation call returns none and makes no
    call at all. *)
Lemma nothing_specified_returns_none (this : UserComponentFactory)
    (holder paramsFromGrid : JsValue) (propertyName : string)
    (defaultName : option string)
    (cb : option (JsValue -> Component -> JsValue)) (tr : list Event) :
  let target := holderOrGridOptions this holder in
  hardcodedNative (get target propertyName) = false ->
  truthy (get target (propertyName ++ "Framework")) = false ->
  truthy (get target (propertyName ++ "Selector")) = false ->
  nameGiven defaultName = false ->
  getComponentClassDef this target propertyName paramsFromGrid defaultName
    = Ok None
  /\ createUserComponent this holder paramsFromGrid propertyName defaultName
       false cb tr = (Ok None, tr).
Proof.
  intros target Hnative Hfw Hsel Hdef.
  assert (Hres :
    getComponentClassDef this target propertyName paramsFromGrid defaultName
    = Ok None).
  { unfold getComponentClassDef. cbv zeta.
    rewrite checkSpecification_holder. cbv zeta.
    rewrite Hnative, Hfw, Hsel. simpl.
    rewrite chooseClassDef_precedence. unfold winner, candidates, selectorResultOf.
    pose proof (readSpecification_native this target propertyName) as Hn.
    cbv zeta in Hn. rewrite Hnative in Hn.
    apply orb_false_elim in Hn. destruct Hn as [Hn Hfn].
    apply orb_false_elim in Hn. destruct Hn as [Hname Hjs].
    simpl.
    rewrite readSpecification_framework, readSpecification_selector.
    rewrite Hfw, Hsel, Hjs, Hfn. simpl. rewrite Hname, Hdef. reflexivity. }
  split; [exact Hres |].
  rewrite createUserComponent_spec. fold target.
  unfold createComponentInstance, bind at 1, lift. rewrite Hres.
  reflexivity.
Qed.

(** A name that is given and that the registry does not know: the lookup
    returns null and [getComponentClassDef] reads [.type] of it. *)
Lemma unknown_name_throws (this : UserComponentFactory)
    (holder paramsFromGrid : JsValue) (propertyName name : string)
    (mandatory : bool)
    (cb : option (JsValue -> Component -> JsValue)) (tr : list Event) :
  let target := holderOrGridOptions this holder in
  hardcodedNative (get target propertyName) = false ->
  truthy (get target (propertyName ++ "Framework")) = false ->
  truthy (get target (propertyName ++ "Selector")) = false ->
  name <> "" ->
  retrieve this name = None ->
  lookupFromRegisteredComponents this propertyName (Some name) = None
  /\ getComponentClassDef this target propertyName paramsFromGrid (Some name)
     = Throw (TypeError "registeredCompClassDef.type")
  /\ createUserComponent this holder paramsFromGrid propertyName (Some name)
       mandatory cb tr
     = (Throw (TypeError "registeredCompClassDef.type"), tr).
Proof.
  intros target Hnative Hfw Hsel Hname Hreg.
  assert (Hlookup :
    lookupFromRegisteredComponents this propertyName (Some name) = None).
  { unfold lookupFromRegisteredComponents. now rewrite Hreg. }
  assert (Hres :
    getComponentClassDef this target propertyName paramsFromGrid (Some name)
    = Throw (TypeError "registeredCompClassDef.type")).
  { unfold getComponentClassDef. cbv zeta.
    rewrite checkSpecification_holder. cbv zeta.
    rewrite Hnative, Hfw, Hsel. simpl.
    rewrite chooseClassDef_precedence. unfold winner, candidates, selectorResultOf.
    pose proof (readSpecification_native this target propertyName) as Hn.
    cbv zeta in Hn. rewrite Hnative in Hn.
    apply orb_false_elim in Hn. destruct Hn as [Hn Hfn].
    apply orb_false_elim in Hn. destruct Hn as [Hgiven Hjs].
    simpl.
    rewrite readSpecification_framework, readSpecification_selector.
    rewrite Hfw, Hsel, Hjs, Hfn. simpl. rewrite Hgiven.
    apply String.eqb_neq in Hname. rewrite Hname. simpl.
    now rewrite Hlookup. }
  split; [exact Hlookup | split; [exact Hres |]].
  now apply failed_resolution_creates_nothing.
Qed.

(** C4, where the code departs from it.  No entry for the extension point, a
    default name the registry does not know, [mandatory = false]: the registry
    lookup returns null, and resolution throws a TypeError instead of
    returning none. *)
Theorem unknown_default_name_not_mandatory :
  let this := Sample.factory None in
  retrieve this "notRegistered" = None
  /\ lookupFromRegisteredComponents this "cellRenderer" (Some "notRegistered")
     = None
  /\ getComponentClassDef this (JObj []) "cellRenderer" JNull
       (Some "notRegistered")
     = Throw (TypeError "registeredCompClassDef.type")
  /\ run (createUserComponent this (JObj []) JNull "cellRenderer"
            (Some "notRegistered") false None)
     = (Throw (TypeError "registeredCompClassDef.type"), []).
Proof. repeat split. Qed.

(** ** Resolution: framework components without a wrapper *)

(** A hardcoded framework reference with no framework wrapper installed and no
    native form next to it: the guard throws before anything is created. *)
Lemma hardcoded_framework_without_wrapper (this : UserComponentFactory)
    (holder paramsFromGrid : JsValue) (propertyName : string)
    (defaultName : option string) (mandatory : bool)
    (cb : option (JsValue -> Component -> JsValue)) (tr : list Event) :
  truthy (get holder (propertyName ++ "Framework")) = true ->
  hardcodedNative (get holder propertyName) = false ->
  frameworkComponentWrapper this = None ->
  getComponentClassDef this holder propertyName paramsFromGrid defaultName
    = Throw (Error (msgNoFramework propertyName))
  /\ createUserComponent this holder paramsFromGrid propertyName defaultName
       mandatory cb tr
     = (Throw (Error (msgNoFramework propertyName)), tr).
Proof.
  intros Hfw Hnative Hnone.
  assert (Hholder : holderOrGridOptions this holder = holder).
  { destruct holder; try discriminate Hfw. reflexivity. }
  assert (Hres :
    getComponentClassDef this holder propertyName paramsFromGrid defaultName
    = Throw (Error (msgNoFramework propertyName))).
  { unfold getComponentClassDef. cbv zeta.
    rewrite checkSpecification_holder. cbv zeta.
    unfold installed. now rewrite Hfw, Hnative, Hnone. }
  split; [exact Hres |].
  apply failed_resolution_creates_nothing. now rewrite Hholder.
Qed.

(** C5, where the code departs from it.  A framework component registered by
    name, reached through the default name, with no framework wrapper
    installed: resolution returns a descriptor of framework kind, and the
    creation call fails on reading [.wrap] of the missing wrapper, with a
    TypeError and not with the MissingFrameworkAdapter error.  No constructor
    and no wrap call has run. *)
Theorem registered_framework_without_wrapper :
  let this := Sample.factory None in
  frameworkComponentWrapper this = None
  /\ getComponentClassDef this (JObj []) "cellRenderer" JNull (Some "myFramework")
     = Ok (Some {| component := Sample.frameworkClass; type := FRAMEWORK;
                   source := REGISTERED_BY_NAME; paramsFromSelector := JNull |})
  /\ run (createUserComponent this (JObj []) JNull "cellRenderer"
            (Some "myFramework") true None)
     = (Throw (TypeError "frameworkComponentWrapper.wrap"), [])
  /\ ~ MissingFrameworkAdapter "cellRenderer"
         (TypeError "frameworkComponentWrapper.wrap").
Proof.
  repeat split. intros H. inversion H.
Qed.

(** ** Parameter merging *)

Lemma mergeDeep_object (dest src : Fields) :
  mergeDeep dest (JObj src)
  = fold_left (fun d kv => mergeKey d (fst kv) (snd kv)) src dest.
Proof.
  revert dest. induction src as [|[k v] tl IH]; intros dest.
  - reflexivity.
  - change (mergeDeep dest (JObj ((k, v) :: tl)))
      with (mergeDeep (mergeKey dest k v) (JObj tl)).
    apply IH.
Qed.

Lemma lookup_mergeKey_same (dest : Fields) (k : string) (v : JsValue) :
  lookup k (mergeKey dest k v) = Some (mergedValue (lookup k dest) v).
Proof.
  unfold mergeKey, mergedValue.
  destruct (lookup k dest) as [[]|]; try apply lookup_assign_same.
  destruct v; apply lookup_assign_same.
Qed.

Lemma lookup_mergeKey_other (dest : Fields) (k k' : string) (v : JsValue) :
  k <> k' -> lookup k (mergeKey dest k' v) = lookup k dest.
Proof.
  intros Hne. unfold mergeKey.
  destruct (lookup k' dest) as [[]|]; try now apply lookup_assign_other.
  destruct v; now apply lookup_assign_other.
Qed.

Lemma lookup_not_in (k : string) (fs : Fields) :
  ~ In k (List.map fst fs) -> lookup k fs = None.
Proof.
  induction fs as [|[k' v'] tl IH]; simpl; intros Hnot; auto.
  destruct (String.eqb k k') eqn:E.
  - apply String.eqb_eq in E. subst. exfalso. apply Hnot. now left.
  - apply IH. intros Hin. apply Hnot. now right.
Qed.

(** Key by key: a key the source does not have keeps the value of [dest]; a
    key both have as objects holds their recursive merge; under any other key
    of the source its value has overwritten the one of [dest]. *)
Lemma lookup_mergeDeep (dest src : Fields) (k : string) :
  NoDup (List.map fst src) ->
  lookup k (mergeDeep dest (JObj src))
  = match lookup k src with
    | None => lookup k dest
    | Some newValue => Some (mergedValue (lookup k dest) newValue)
    end.
Proof.
  rewrite mergeDeep_object. revert dest.
  induction src as [|[k' v'] tl IH]; intros dest Hnodup; simpl.
  - reflexivity.
  - inversion Hnodup as [|? ? Hnotin Htl]; subst.
    rewrite (IH _ Htl).
    destruct (String.eqb k k') eqn:E.
    + apply String.eqb_eq in E. subst k'.
      rewrite (lookup_not_in _ _ Hnotin). apply lookup_mergeKey_same.
    + apply String.eqb_neq in E.
      now rewrite (lookup_mergeKey_other _ _ _ _ E).
Qed.

Lemma mergedValue_leaf (old : option JsValue) (v : JsValue) :
  isObject v = false -> mergedValue old v = v.
Proof.
  intros Hleaf. unfold mergedValue.
  destruct old as [[]|]; try reflexivity.
  destruct v; try reflexivity. discriminate.
Qed.

(** Three sources merged in a row, key by key: a leaf of the last source
    wins; failing that a leaf of the middle one; a key only the first source
    has keeps its value; objects from two sources under one key are merged. *)
Lemma lookup_three_merges (c h s : Fields) (k : string) :
  NoDup (List.map fst c) -> NoDup (List.map fst h) -> NoDup (List.map fst s) ->
  let merged :=
    mergeDeep (mergeDeep (mergeDeep [] (JObj c)) (JObj h)) (JObj s) in
  (forall v, lookup k s = Some v -> isObject v = false ->
     lookup k merged = Some v)
  /\ (forall v, lookup k s = None -> lookup k h = Some v ->
        isObject v = false -> lookup k merged = Some v)
  /\ (lookup k s = None -> lookup k h = None ->
      lookup k merged = lookup k c)
  /\ (forall a b, lookup k s = None -> lookup k h = Some (JObj b) ->
        lookup k c = Some (JObj a) ->
        lookup k merged = Some (JObj (mergeDeep a (JObj b)))).
Proof.
  intros Hc Hh Hs merged. subst merged.
  assert (Hfirst : lookup k (mergeDeep [] (JObj c)) = lookup k c).
  { rewrite (lookup_mergeDeep _ _ _ Hc). simpl.
    destruct (lookup k c) as [v|]; [| reflexivity].
    unfold mergedValue. reflexivity. }
  repeat split.
  - intros v Hv Hleaf.
    rewrite (lookup_mergeDeep _ _ _ Hs), Hv.
    now rewrite mergedValue_leaf.
  - intros v Hnone Hv Hleaf.
    rewrite (lookup_mergeDeep _ _ _ Hs), Hnone.
    rewrite (lookup_mergeDeep _ _ _ Hh), Hv.
    now rewrite mergedValue_leaf.
  - intros Hnone Hnone'.
    rewrite (lookup_mergeDeep _ _ _ Hs), Hnone.
    rewrite (lookup_mergeDeep _ _ _ Hh), Hnone'.
    exact Hfirst.
  - intros a b Hnone Hb Ha.
    rewrite (lookup_mergeDeep _ _ _ Hs), Hnone.
    rewrite (lookup_mergeDeep _ _ _ Hh), Hb, Hfirst, Ha.
    reflexivity.
Qed.

(** C2. [createFinalParams] merges, into a fresh object and in this order,
    the caller's params, the contribution of the holder's [P + "Params"] entry
    (the result of calling it with the caller's params if it is a function,
    the entry itself if it is an object) and the selector's params; each merge
    is key by key, recursive where both sides hold an object and overwriting
    with the later value otherwise, so that a leaf of the selector's params
    wins over the holder's and the caller's, and a leaf of the holder's over
    the caller's; the result always has an [api] key, put
    there from the grid options when the merge has none.  On the example of
    the specification the result is [{a:3, b:{x:1,y:2}, api}]. *)
Theorem createFinalParams_deep_merge (this : UserComponentFactory)
    (holder : JsValue) (propertyName : string)
    (callerParams selectorParams : JsValue) :
  let merged :=
    mergeDeep
      (mergeDeep (mergeDeep [] callerParams)
         (holderParams this holder propertyName callerParams))
      (orNull selectorParams) in
  let final :=
    createFinalParams this holder propertyName callerParams selectorParams in
  final = (if truthy (get (JObj merged) "api") then merged
           else assign "api" (get (gridOptions this) "api") merged)
  /\ hasKey final "api" = true
  /\ (hasKey merged "api" = false ->
      final = assign "api" (get (gridOptions this) "api") merged)
  /\ (forall (dest src : Fields) (k : string),
        NoDup (List.map fst src) ->
        lookup k (mergeDeep dest (JObj src))
        = match lookup k src with
          | None => lookup k dest
          | Some newValue => Some (mergedValue (lookup k dest) newValue)
          end)
  /\ (forall (c h s : Fields) (k : string),
        callerParams = JObj c ->
        holderParams this holder propertyName callerParams = JObj h ->
        selectorParams = JObj s ->
        NoDup (List.map fst c) -> NoDup (List.map fst h) ->
        NoDup (List.map fst s) ->
        (forall v, lookup k s = Some v -> isObject v = false ->
           lookup k merged = Some v)
        /\ (forall v, lookup k s = None -> lookup k h = Some v ->
              isObject v = false -> lookup k merged = Some v)
        /\ (lookup k s = None -> lookup k h = None ->
            lookup k merged = lookup k c)
        /\ (forall a b, lookup k s = None -> lookup k h = Some (JObj b) ->
              lookup k c = Some (JObj a) ->
              lookup k merged = Some (JObj (mergeDeep a (JObj b)))))
  /\ createFinalParams this
       (JObj [((propertyName ++ "Params")%string,
               JObj [("b", JObj [("y", JNum 2)])])])
       propertyName
       (JObj [("a", JNum 1); ("b", JObj [("x", JNum 1)])])
       (JObj [("a", JNum 3)])
     = [("a", JNum 3);
        ("b", JObj [("x", JNum 1); ("y", JNum 2)]);
        ("api", get (gridOptions this) "api")].
Proof.
  intros merged final.
  assert (Hfinal :
    final = (if truthy (get (JObj merged) "api") then merged
             else assign "api" (get (gridOptions this) "api") merged)).
  { subst final merged. unfold createFinalParams, holderParams. cbv zeta.
    destruct (if truthy holder then get holder (propertyName ++ "Params")
              else JNull) as [| |b|n|s|fs|r]; simpl;
      match goal with
      | |- context [truthy ?v] => destruct (truthy v)
      end; reflexivity. }
  split; [exact Hfinal | split; [| split; [| split; [| split]]]].
  - rewrite Hfinal. unfold hasKey, get.
    destruct (lookup "api" merged) as [v|] eqn:Hapi.
    + destruct (truthy v); [now rewrite Hapi | now rewrite lookup_assign_same].
    + simpl. now rewrite lookup_assign_same.
  - intros Hnone. rewrite Hfinal. unfold hasKey in Hnone. unfold get.
    destruct (lookup "api" merged); [discriminate | reflexivity].
  - intros dest src k. apply lookup_mergeDeep.
  - intros c h s k Hc Hh Hs Dc Dh Ds. subst merged.
    rewrite Hh. subst callerParams selectorParams.
    now apply lookup_three_merges.
  - unfold createFinalParams. cbv zeta. simpl. rewrite String.eqb_refl.
    reflexivity.
Qed.

Lemma createFinalParams_deep_merge_witness :
  let this := Sample.factory None in
  createFinalParams this
    (JObj [("cellRendererParams", JObj [("b", JObj [("y", JNum 2)])])])
    "cellRenderer"
    (JObj [("a", JNum 1); ("b", JObj [("x", JNum 1)])])
    (JObj [("a", JNum 3)])
  = [("a", JNum 3); ("b", JObj [("x", JNum 1); ("y", JNum 2)]);
     ("api", JStr "gridApi")]
  /\ lookup "b" (mergeDeep [("b", JObj [("x", JNum 1)])]
                   (JObj [("b", JObj [("y", JNum 2)])]))
     = Some (JObj [("x", JNum 1); ("y", JNum 2)]).
Proof.
  pose proof (createFinalParams_deep_merge (Sample.factory None) JNull
                "cellRenderer" JNull JNull) as H.
  cbv zeta in H.
  destruct H as [_ [_ [_ [Hmerge [_ Hexample]]]]].
  split.
  - exact Hexample.
  - apply (Hmerge [("b", JObj [("x", JNum 1)])] [("b", JObj [("y", JNum 2)])] "b").
    repeat constructor. simpl. tauto.
Defined.

(** ** Instantiation *)

(** What [createComponentInstance] does with the outcome of resolution. *)
Lemma createComponentInstance_spec (this : UserComponentFactory)
    (holder : JsValue) (propertyName : string) (paramsForSelector : JsValue)
    (defaultName : option string) (mandatory : bool) (tr : list Event) :
  createComponentInstance this holder propertyName paramsForSelector
    defaultName mandatory tr
  = match getComponentClassDef this holder propertyName paramsForSelector
            defaultName with
    | Throw e => (Throw e, tr)
    | Ok None => (Ok None, reportMissing mandatory propertyName defaultName tr)
    | Ok (Some def) =>
        if truthy (component def) then
          match type def with
          | PLAIN_JAVASCRIPT =>
              (Ok (Some (construct this (component def), paramsFromSelector def)),
               tr ++ [EvNew (component def)])
          | FRAMEWORK =>
              match frameworkComponentWrapper this, retrieveMetadata this propertyName with
              | None, _ => (Throw (TypeError "frameworkComponentWrapper.wrap"), tr)
              | Some _, None =>
                  (Throw (TypeError "thisComponentConfig.mandatoryMethodList"), tr)
              | Some wrapper, Some config =>
                  (Ok (Some (wrap wrapper (component def)
                               (mandatoryMethodList config)
                               (optionalMethodList config) defaultName,
                             paramsFromSelector def)),
                   tr ++ [EvWrap (component def) (mandatoryMethodList config)
                            (optionalMethodList config) defaultName])
              end
          end
        else (Ok None, reportMissing mandatory propertyName defaultName tr)
    end.
Proof.
  unfold createComponentInstance, reportMissing, bind at 1, lift.
  destruct (getComponentClassDef _ _ _ _ _) as [[def|]|e]; try reflexivity.
  - destruct (truthy (component def)); simpl.
    + destruct (type def); [reflexivity |].
      destruct (frameworkComponentWrapper this) as [w|]; [| reflexivity].
      destruct (retrieveMetadata this propertyName); reflexivity.
    + destruct mandatory; reflexivity.
  - destruct mandatory; reflexivity.
Qed.


Lemma holderOrGridOptions_idem (this : UserComponentFactory) (holder : JsValue) :
  holderOrGridOptions this (holderOrGridOptions this holder)
  = holderOrGridOptions this holder.
Proof.
  unfold holderOrGridOptions.
  destruct (truthy holder) eqn:Hh; simpl.
  - now rewrite Hh.
  - destruct (truthy (gridOptions this)); reflexivity.
Qed.



(** ** Resolution: which error, and when *)

Lemma chooseClassDef_throws (this : UserComponentFactory) (spec : Specification)
    (propertyName : string) (params : JsValue) (defaultName : option string)
    (e : Exception) :
  chooseClassDef this spec propertyName params defaultName = Throw e ->
  e = TypeError "registeredCompClassDef.type".
Proof.
  unfold chooseClassDef.
  destruct (truthy (HardcodedFwComponent spec)); [discriminate |].
  destruct (truthy (HardcodedJsComponent spec)); [discriminate |].
  destruct (truthy (hardcodedJsFunction spec)); [discriminate |].
  cbv zeta.
  destruct (negb (nameGiven _)); [discriminate |].
  destruct (lookupFromRegisteredComponents _ _ _); [discriminate |].
  now intros [= <-].
Qed.

(** Resolution on a holder the guards let through. *)
Lemma getComponentClassDef_unguarded (this : UserComponentFactory)
    (holder : JsValue) (propertyName : string) (params : JsValue)
    (defaultName : option string) :
  let native := hardcodedNative (get holder propertyName) in
  let fw := truthy (get holder (propertyName ++ "Framework")) in
  let sel := truthy (get holder (propertyName ++ "Selector")) in
  native && fw = false ->
  fw && negb (installed this) = false ->
  sel && (native || fw) = false ->
  getComponentClassDef this holder propertyName params defaultName
  = chooseClassDef this (readSpecification this holder propertyName)
      propertyName (orNull params) defaultName.
Proof.
  cbv zeta. intros H1 H2 H3.
  unfold getComponentClassDef. cbv zeta.
  rewrite checkSpecification_holder. cbv zeta.
  now rewrite H1, H2, H3.
Qed.

(** X3. [getComponentClassDef] throws an [Error] of its own in exactly three
    situations, tested in this order, and the message tells which: a framework
    reference next to a native hardcoded form ("twice"), even when no wrapper
    is installed; otherwise a framework reference with no wrapper installed;
    otherwise a selector next to any hardcoded form.  On every other holder no
    such error is thrown. *)
Theorem validation_error_iff (this : UserComponentFactory)
    (holder : JsValue) (propertyName : string) (params : JsValue)
    (defaultName : option string) (message : string) :
  let native := hardcodedNative (get holder propertyName) in
  let fw := truthy (get holder (propertyName ++ "Framework")) in
  let sel := truthy (get holder (propertyName ++ "Selector")) in
  getComponentClassDef this holder propertyName params defaultName
    = Throw (Error message)
  <-> (native && fw = true /\ message = msgTwice propertyName)
      \/ (native && fw = false /\ fw && negb (installed this) = true
          /\ message = msgNoFramework propertyName)
      \/ (native && fw = false /\ fw && negb (installed this) = false
          /\ sel && (native || fw) = true
          /\ message = msgSelectorAndComponent propertyName).
Proof.
  cbv zeta. unfold getComponentClassDef. cbv zeta.
  rewrite checkSpecification_holder. cbv zeta.
  destruct (hardcodedNative (get holder propertyName) &&
            truthy (get holder (propertyName ++ "Framework"))) eqn:H1.
  { split.
    - intros [= <-]. left. now split.
    - intros [[_ ->] | [[H _] | [H _]]]; [reflexivity | discriminate H ..]. }
  destruct (truthy (get holder (propertyName ++ "Framework")) &&
            negb (installed this)) eqn:H2.
  { split.
    - intros [= <-]. right. left. now repeat split.
    - intros [[H _] | [[_ [_ ->]] | [_ [H _]]]];
        [discriminate H | reflexivity | discriminate H]. }
  destruct (truthy (get holder (propertyName ++ "Selector")) && _) eqn:H3.
  { split.
    - intros [= <-]. right. right. now repeat split.
    - intros [[H _] | [[_ [H _]] | [_ [_ [_ ->]]]]];
        [discriminate H .. | reflexivity]. }
  split.
  - intros Hthrow. apply chooseClassDef_throws in Hthrow. discriminate Hthrow.
  - intros [[H _] | [[_ [H _]] | [_ [_ [H _]]]]]; discriminate H.
Qed.

Lemma validation_error_iff_witness :
  getComponentClassDef (Sample.factory None)
    (JObj [("cellRenderer", Sample.plainClass);
           ("cellRendererFramework", Sample.frameworkClass)])
    "cellRenderer" JNull None
  = Throw (Error (msgTwice "cellRenderer")).
Proof.
  apply (proj2 (validation_error_iff (Sample.factory None)
                  (JObj [("cellRenderer", Sample.plainClass);
                         ("cellRendererFramework", Sample.frameworkClass)])
                  "cellRenderer" JNull None (msgTwice "cellRenderer"))).
  left. split; reflexivity.
Defined.

(** X4. The params handed to resolution matter to the selector only: on a
    holder without a selector, [getComponentClassDef] returns the same for
    any two params, and so does the instantiation that follows it. *)
Theorem params_only_reach_selector (this : UserComponentFactory)
    (holder : JsValue) (propertyName : string) (params params' : JsValue)
    (defaultName : option string) (mandatory : bool) (tr : list Event)
    (Hnone : truthy (get holder (propertyName ++ "Selector")) = false) :
  getComponentClassDef this holder propertyName params defaultName
  = getComponentClassDef this holder propertyName params' defaultName
  /\ createComponentInstance this holder propertyName params defaultName
       mandatory tr
     = createComponentInstance this holder propertyName params' defaultName
         mandatory tr.
Proof.
  assert (Hres :
    getComponentClassDef this holder propertyName params defaultName
    = getComponentClassDef this holder propertyName params' defaultName).
  { unfold getComponentClassDef. cbv zeta.
    destruct (checkSpecification _ _ _); [| reflexivity].
    rewrite !chooseClassDef_precedence.
    unfold winner, candidates, selectorResultOf.
    now rewrite readSpecification_selector, Hnone. }
  split; [exact Hres |].
  now rewrite !createComponentInstance_spec, Hres.
Qed.

Lemma params_only_reach_selector_witness :
  getComponentClassDef (Sample.factory None) (JObj []) "cellRenderer"
    (JObj [("value", JNum 1)]) (Some "agPlain")
  = getComponentClassDef (Sample.factory None) (JObj []) "cellRenderer"
      JNull (Some "agPlain").
Proof.
  exact (proj1 (params_only_reach_selector (Sample.factory None) (JObj [])
                  "cellRenderer" (JObj [("value", JNum 1)]) JNull
                  (Some "agPlain") true [] eq_refl)).
Defined.

(** ** Creation from a hardcoded value *)

(** The specification read from a holder whose value at [P] is an object or a
    function (anything recorded that is not a name). *)
Lemma readSpecification_value (this : UserComponentFactory)
    (holder : JsValue) (propertyName : string) :
  let v := get holder propertyName in
  hardcodedNative v = true ->
  (forall s, v <> JStr s) ->
  readSpecification this holder propertyName
  = {| hardcodedNameComponent := None;
       HardcodedJsComponent :=
         if doesImplementIComponent this v then v else JNull;
       hardcodedJsFunction :=
         if doesImplementIComponent this v then JNull else v;
       HardcodedFwComponent := get holder (propertyName ++ "Framework");
       componentSelectorFunc := get holder (propertyName ++ "Selector") |}.
Proof.
  cbv zeta. intros Hnative Hnot.
  assert (Hholder : notNull holder = true).
  { destruct holder; try discriminate Hnative; reflexivity. }
  unfold readSpecification. rewrite Hholder.
  destruct (get holder propertyName) as [| |b|n|s|fs|r] eqn:Hv;
    try discriminate Hnative.
  - simpl. destruct (doesImplementIComponent this (JNum n)); reflexivity.
  - exfalso. now apply (Hnot s).
  - simpl. destruct (doesImplementIComponent this (JObj fs)); reflexivity.
  - simpl. destruct (doesImplementIComponent this (JFun r)); reflexivity.
Qed.

Lemma holderOrGridOptions_truthy (this : UserComponentFactory)
    (holder : JsValue) (k : string) :
  hardcodedNative (get holder k) = true \/ truthy (get holder k) = true ->
  holderOrGridOptions this holder = holder.
Proof.
  intros H. destruct holder; try reflexivity;
    destruct H as [H | H]; discriminate H.
Qed.

(** X5. A class that implements the component interface, stored at [P] with
    neither a framework reference nor a selector beside it, is what
    [createUserComponent] constructs: the descriptor is hardcoded and native,
    the registry, the default name, the metadata store and the wrapper play no
    part, and the calls made are those of
    [createUserComponentFromConcreteClass] on that class with the final
    params. *)
Theorem hardcoded_class_is_constructed (this : UserComponentFactory)
    (holder paramsFromGrid : JsValue) (propertyName : string)
    (defaultName : option string) (mandatory : bool)
    (cb : option (JsValue -> Component -> JsValue)) (tr : list Event)
    (Hnative : hardcodedNative (get holder propertyName) = true)
    (Hclass : forall s, get holder propertyName <> JStr s)
    (Himpl : doesImplementIComponent this (get holder propertyName) = true)
    (Hfw : truthy (get holder (propertyName ++ "Framework")) = false)
    (Hsel : truthy (get holder (propertyName ++ "Selector")) = false) :
  let clazz := get holder propertyName in
  let c := construct this clazz in
  let params := paramsForInit this holder paramsFromGrid propertyName JNull in
  getComponentClassDef this holder propertyName paramsFromGrid defaultName
    = Ok (Some {| component := clazz; type := PLAIN_JAVASCRIPT;
                  source := HARDCODED; paramsFromSelector := JNull |})
  /\ createUserComponent this holder paramsFromGrid propertyName defaultName
       mandatory cb tr
     = (Ok (Some (futureOf c (initOutcome c params cb))),
        tr ++ EvNew clazz :: initEvents c params cb)
  /\ snd (createUserComponent this holder paramsFromGrid propertyName
            defaultName mandatory cb tr)
     = snd (createUserComponentFromConcreteClass this clazz params cb tr).
Proof.
  cbv zeta.
  assert (Htruthy : truthy (get holder propertyName) = true).
  { destruct (get holder propertyName); try discriminate Hnative;
      exact Hnative. }
  assert (Hres :
    getComponentClassDef this holder propertyName paramsFromGrid defaultName
    = Ok (Some {| component := get holder propertyName;
                  type := PLAIN_JAVASCRIPT; source := HARDCODED;
                  paramsFromSelector := JNull |})).
  { rewrite getComponentClassDef_unguarded; cbv zeta;
      rewrite ?Hfw, ?Hsel, ?andb_false_r; try reflexivity.
    rewrite (readSpecification_value this holder propertyName Hnative Hclass).
    rewrite Himpl. unfold chooseClassDef. simpl.
    now rewrite Hfw, Htruthy. }
  assert (Hcreate :
    createUserComponent this holder paramsFromGrid propertyName defaultName
      mandatory cb tr
    = (Ok (Some (futureOf (construct this (get holder propertyName))
                   (initOutcome (construct this (get holder propertyName))
                      (paramsForInit this holder paramsFromGrid propertyName
                         JNull) cb))),
       tr ++ EvNew (get holder propertyName)
          :: initEvents (construct this (get holder propertyName))
               (paramsForInit this holder paramsFromGrid propertyName JNull)
               cb)).
  { rewrite createUserComponent_spec, createComponentInstance_spec.
    rewrite (holderOrGridOptions_truthy this holder propertyName (or_introl Hnative)).
    rewrite Hres. simpl. rewrite Htruthy. cbv zeta.
    now rewrite <- app_assoc. }
  split; [exact Hres | split; [exact Hcreate |]].
  rewrite Hcreate. simpl.
  unfold createUserComponentFromConcreteClass, bind at 1, emit.
  unfold bind. rewrite initialiseComponent_spec. unfold ret. simpl.
  now rewrite <- app_assoc.
Qed.

Lemma hardcoded_class_is_constructed_witness :
  let this := Fixture.factory false false None in
  let holder := JObj [("cellRenderer", Sample.plainClass)] in
  let c := Sample.instanceOf Sample.plainClass in
  createUserComponent this holder (JObj [("value", JNum 1)]) "cellRenderer"
    (Some "agDeferred") true None []
  = (Ok (Some (Resolved c)),
     [EvNew Sample.plainClass; EvWireBean c;
      EvInit c (JObj [("value", JNum 1); ("api", JStr "gridApi");
                      ("agGridReact", JObj []);
                      ("frameworkComponentWrapper", JObj [])])]).
Proof.
  refine (proj1 (proj2 (hardcoded_class_is_constructed
                          (Fixture.factory false false None)
                          (JObj [("cellRenderer", Sample.plainClass)])
                          (JObj [("value", JNum 1)]) "cellRenderer"
                          (Some "agDeferred") true None [] eq_refl _ eq_refl
                          eq_refl eq_refl))).
  intros s H. discriminate H.
Defined.

(** X6. A value at [P] that is neither a name nor a class implementing the
    component interface is handed to [adaptFunction]; when that returns null
    (the extension point has no function adapter), or a descriptor whose
    component is null, [createUserComponent] returns null without throwing
    and creates nothing: its only call is the [console.error] of a mandatory
    component. *)
Theorem unadaptable_function_creates_nothing (this : UserComponentFactory)
    (holder paramsFromGrid : JsValue) (propertyName : string)
    (defaultName : option string) (mandatory : bool)
    (cb : option (JsValue -> Component -> JsValue)) (tr : list Event)
    (Hnative : hardcodedNative (get holder propertyName) = true)
    (Hfunction : forall s, get holder propertyName <> JStr s)
    (Himpl : doesImplementIComponent this (get holder propertyName) = false)
    (Hfw : truthy (get holder (propertyName ++ "Framework")) = false)
    (Hsel : truthy (get holder (propertyName ++ "Selector")) = false)
    (Hadapt :
       match adaptFunction this propertyName (get holder propertyName)
               PLAIN_JAVASCRIPT HARDCODED with
       | None => True
       | Some def => truthy (component def) = false
       end) :
  getComponentClassDef this holder propertyName paramsFromGrid defaultName
    = Ok (adaptFunction this propertyName (get holder propertyName)
            PLAIN_JAVASCRIPT HARDCODED)
  /\ createUserComponent this holder paramsFromGrid propertyName defaultName
       mandatory cb tr
     = (Ok None, reportMissing mandatory propertyName defaultName tr).
Proof.
  assert (Htruthy : truthy (get holder propertyName) = true).
  { destruct (get holder propertyName); try discriminate Hnative;
      exact Hnative. }
  assert (Hres :
    getComponentClassDef this holder propertyName paramsFromGrid defaultName
    = Ok (adaptFunction this propertyName (get holder propertyName)
            PLAIN_JAVASCRIPT HARDCODED)).
  { rewrite getComponentClassDef_unguarded; cbv zeta;
      rewrite ?Hfw, ?Hsel, ?andb_false_r; try reflexivity.
    rewrite (readSpecification_value this holder propertyName Hnative Hfunction).
    rewrite Himpl. unfold chooseClassDef. simpl.
    now rewrite Hfw, Htruthy. }
  split; [exact Hres |].
  rewrite createUserComponent_spec, createComponentInstance_spec.
  rewrite (holderOrGridOptions_truthy this holder propertyName (or_introl Hnative)).
  rewrite Hres.
  destruct (adaptFunction _ _ _ _ _) as [def|]; [| reflexivity].
  now rewrite Hadapt.
Qed.

Lemma unadaptable_function_creates_nothing_witness :
  createUserComponent (Fixture.factory true false None)
    (JObj [("cellRenderer", JFun 42)]) JNull "cellRenderer" None true None []
  = (Ok None, [EvConsoleError "Error creating component cellRenderer=>undefined"]).
Proof.
  refine (proj2 (unadaptable_function_creates_nothing
                   (Fixture.factory true false None)
                   (JObj [("cellRenderer", JFun 42)]) JNull "cellRenderer"
                   None true None [] eq_refl _ eq_refl eq_refl eq_refl I)).
  intros s H. discriminate H.
Defined.

(** ** Creation through the framework wrapper *)

Lemma hardcoded_framework_classDef (this : UserComponentFactory)
    (holder : JsValue) (propertyName : string) (params : JsValue)
    (defaultName : option string) :
  truthy (get holder (propertyName ++ "Framework")) = true ->
  hardcodedNative (get holder propertyName) = false ->
  truthy (get holder (propertyName ++ "Selector")) = false ->
  installed this = true ->
  getComponentClassDef this holder propertyName params defaultName
  = Ok (Some {| component := get holder (propertyName ++ "Framework");
                type := FRAMEWORK; source := HARDCODED;
                paramsFromSelector := JNull |}).
Proof.
  intros Hfw Hnative Hsel Hinst.
  rewrite getComponentClassDef_unguarded; cbv zeta;
    rewrite ?Hfw, ?Hsel, ?Hnative, ?Hinst; try reflexivity.
  unfold chooseClassDef.
  rewrite readSpecification_framework, Hfw.
  assert (Hholder : notNull holder = true).
  { destruct holder; try discriminate Hfw; reflexivity. }
  unfold readSpecification. rewrite Hholder.
  destruct (notNull (get holder propertyName) && _);
    [destruct (get holder propertyName);
     try destruct (doesImplementIComponent this _) |]; reflexivity.
Qed.

(** X7. A framework reference at [P + "Framework"] with a wrapper installed
    and metadata for [P]: [createUserComponent] makes one wrap call and no
    constructor call.  The wrapper receives the reference, the mandatory and
    optional method lists of the metadata for [P], and as its name argument
    the default component name of the call (undefined when none was given);
    the instance is what the wrapper returned.  The registry plays no part. *)
Theorem framework_reference_is_wrapped (this : UserComponentFactory)
    (holder paramsFromGrid : JsValue) (propertyName : string)
    (defaultName : option string) (mandatory : bool)
    (cb : option (JsValue -> Component -> JsValue)) (tr : list Event)
    (wrapper : FrameworkComponentWrapper) (config : ComponentMetadata)
    (Hfw : truthy (get holder (propertyName ++ "Framework")) = true)
    (Hnative : hardcodedNative (get holder propertyName) = false)
    (Hsel : truthy (get holder (propertyName ++ "Selector")) = false)
    (Hwrapper : frameworkComponentWrapper this = Some wrapper)
    (Hconfig : retrieveMetadata this propertyName = Some config) :
  let raw := get holder (propertyName ++ "Framework") in
  let c :=
    wrap wrapper raw (mandatoryMethodList config) (optionalMethodList config)
      defaultName in
  let params := paramsForInit this holder paramsFromGrid propertyName JNull in
  createUserComponent this holder paramsFromGrid propertyName defaultName
    mandatory cb tr
  = (Ok (Some (futureOf c (initOutcome c params cb))),
     tr ++ EvWrap raw (mandatoryMethodList config) (optionalMethodList config)
             defaultName
        :: initEvents c params cb).
Proof.
  cbv zeta.
  rewrite createUserComponent_spec, createComponentInstance_spec.
  rewrite (holderOrGridOptions_truthy this holder (propertyName ++ "Framework")
             (or_intror Hfw)).
  rewrite hardcoded_framework_classDef; auto;
    [| unfold installed; now rewrite Hwrapper].
  simpl. rewrite Hfw, Hwrapper, Hconfig. cbv zeta.
  now rewrite <- app_assoc.
Qed.

Lemma framework_reference_is_wrapped_witness :
  let c := Sample.instanceOf Sample.frameworkClass in
  createUserComponent (Fixture.factory true true None)
    (JObj [("cellRendererFramework", Sample.frameworkClass)]) JNull
    "cellRenderer" (Some "agPlain") true None []
  = (Ok (Some (Resolved c)),
     [EvWrap Sample.frameworkClass ["getGui"] ["destroy"] (Some "agPlain");
      EvWireBean c;
      EvInit c (JObj [("api", JStr "gridApi"); ("agGridReact", JObj []);
                      ("frameworkComponentWrapper", JObj [])])]).
Proof.
  exact (framework_reference_is_wrapped (Fixture.factory true true None)
           (JObj [("cellRendererFramework", Sample.frameworkClass)]) JNull
           "cellRenderer" (Some "agPlain") true None [] Sample.wrapper
           {| mandatoryMethodList := ["getGui"]; optionalMethodList := ["destroy"] |}
           eq_refl eq_refl eq_refl eq_refl eq_refl).
Defined.

(** X8. The metadata of the extension point is read for framework components
    only.  A framework reference with a wrapper installed and no metadata for
    [P] makes [createUserComponent] throw a TypeError, on reading the method
    list of the missing metadata, before any wrap call. *)
Theorem framework_reference_without_metadata (this : UserComponentFactory)
    (holder paramsFromGrid : JsValue) (propertyName : string)
    (defaultName : option string) (mandatory : bool)
    (cb : option (JsValue -> Component -> JsValue)) (tr : list Event)
    (wrapper : FrameworkComponentWrapper)
    (Hfw : truthy (get holder (propertyName ++ "Framework")) = true)
    (Hnative : hardcodedNative (get holder propertyName) = false)
    (Hsel : truthy (get holder (propertyName ++ "Selector")) = false)
    (Hwrapper : frameworkComponentWrapper this = Some wrapper)
    (Hconfig : retrieveMetadata this propertyName = None) :
  createUserComponent this holder paramsFromGrid propertyName defaultName
    mandatory cb tr
  = (Throw (TypeError "thisComponentConfig.mandatoryMethodList"), tr).
Proof.
  rewrite createUserComponent_spec, createComponentInstance_spec.
  rewrite (holderOrGridOptions_truthy this holder (propertyName ++ "Framework")
             (or_intror Hfw)).
  rewrite hardcoded_framework_classDef; auto;
    [| unfold installed; now rewrite Hwrapper].
  simpl. now rewrite Hfw, Hwrapper, Hconfig.
Qed.

Lemma framework_reference_without_metadata_witness :
  createUserComponent (Fixture.factory false true None)
    (JObj [("cellRendererFramework", Sample.frameworkClass)]) JNull
    "cellRenderer" None true None []
  = (Throw (TypeError "thisComponentConfig.mandatoryMethodList"), []).
Proof.
  exact (framework_reference_without_metadata (Fixture.factory false true None)
           (JObj [("cellRendererFramework", Sample.frameworkClass)]) JNull
           "cellRenderer" None true None [] Sample.wrapper
           eq_refl eq_refl eq_refl eq_refl eq_refl).
Defined.

(** ** Resolution by name *)

Lemma lookupFromRegisteredComponents_class (this : UserComponentFactory)
    (propertyName name : string) (rc : RegisteredComponent) :
  retrieve this name = Some rc ->
  rc_type rc = FRAMEWORK
  \/ doesImplementIComponent this (rc_component rc) = true ->
  lookupFromRegisteredComponents this propertyName (Some name)
  = Some {| component := rc_component rc; type := rc_type rc;
            source := provenance rc; paramsFromSelector := JNull |}.
Proof.
  intros Hrc Hclass. unfold lookupFromRegisteredComponents, provenance.
  rewrite Hrc.
  destruct (rc_type rc) eqn:Htype.
  - destruct Hclass as [H | H]; [discriminate H |]. rewrite H.
    destruct (rc_source rc); reflexivity.
  - destruct (rc_source rc); reflexivity.
Qed.

Ltac by_name_case :=
  unfold componentNameToUse; simpl;
  repeat match goal with
         | |- context [nameGiven ?n] =>
             let H := fresh "Hgiven" in
             destruct (nameGiven n) eqn:H; simpl; try rewrite H
         end;
  try congruence; reflexivity.

(** Resolution on a holder with neither framework reference nor selector and
    nothing but a name, if anything, at [P]. *)
Lemma getComponentClassDef_by_name (this : UserComponentFactory)
    (holder : JsValue) (propertyName : string) (params : JsValue)
    (defaultName : option string) :
  truthy (get holder (propertyName ++ "Framework")) = false ->
  truthy (get holder (propertyName ++ "Selector")) = false ->
  (hardcodedNative (get holder propertyName) = true ->
   exists s, get holder propertyName = JStr s) ->
  getComponentClassDef this holder propertyName params defaultName
  = let name := nameAt (get holder propertyName) defaultName in
    if nameGiven name
    then match lookupFromRegisteredComponents this propertyName name with
         | None => Throw (TypeError "registeredCompClassDef.type")
         | Some registered =>
             Ok (Some {| component := component registered;
                         type := type registered;
                         source := source registered;
                         paramsFromSelector := JNull |})
         end
    else Ok None.
Proof.
  intros Hfw Hsel Hform.
  rewrite getComponentClassDef_unguarded; cbv zeta;
    rewrite ?Hfw, ?Hsel, ?andb_false_r; try reflexivity.
  unfold chooseClassDef.
  rewrite readSpecification_framework, readSpecification_selector, Hfw, Hsel.
  unfold readSpecification.
  destruct (notNull holder) eqn:Hholder.
  - destruct (get holder propertyName) as [| |b|n|s|fs|r] eqn:Hv.
    + by_name_case.
    + by_name_case.
    + destruct b; by_name_case.
    + destruct n as [|n].
      * destruct (doesImplementIComponent this (JNum 0)) eqn:Himpl;
          simpl; rewrite ?Himpl; by_name_case.
      * destruct (Hform eq_refl) as [s Hs]. discriminate Hs.
    + simpl. unfold componentNameToUse. simpl.
      destruct (String.eqb s "") eqn:Hempty; simpl;
        [by_name_case | rewrite ?Hempty; reflexivity].
    + destruct (Hform eq_refl) as [s Hs]. discriminate Hs.
    + destruct (Hform eq_refl) as [s Hs]. discriminate Hs.
  - assert (Hv : get holder propertyName = JUndefined).
    { destruct holder; try discriminate Hholder; reflexivity. }
    rewrite Hv. by_name_case.
Qed.

(** X9. With neither framework reference nor selector, and nothing but a name
    at [P] if anything, resolution goes by name: the string at [P] when it is
    not empty, the default name otherwise (also for [true], [false] and an
    empty string at [P]).  For a name the registry binds to a class, the
    descriptor carries the registered class and kind, and its provenance is
    never hardcoded: default for a native class the registry holds as a
    default, registered by name for every other one, framework classes
    included. *)
Theorem resolution_by_name (this : UserComponentFactory)
    (holder : JsValue) (propertyName : string) (params : JsValue)
    (defaultName : option string) (name : string) (rc : RegisteredComponent)
    (Hfw : truthy (get holder (propertyName ++ "Framework")) = false)
    (Hsel : truthy (get holder (propertyName ++ "Selector")) = false)
    (Hform : hardcodedNative (get holder propertyName) = true ->
             exists s, get holder propertyName = JStr s)
    (Hname : nameAt (get holder propertyName) defaultName = Some name)
    (Hgiven : name <> "")
    (Hbound : retrieve this name = Some rc)
    (Hclass : rc_type rc = FRAMEWORK
              \/ doesImplementIComponent this (rc_component rc) = true) :
  getComponentClassDef this holder propertyName params defaultName
  = Ok (Some {| component := rc_component rc; type := rc_type rc;
                source := provenance rc; paramsFromSelector := JNull |})
  /\ provenance rc <> HARDCODED.
Proof.
  split.
  - rewrite getComponentClassDef_by_name by assumption. cbv zeta.
    rewrite Hname. simpl.
    apply String.eqb_neq in Hgiven. rewrite Hgiven. simpl.
    now rewrite (lookupFromRegisteredComponents_class this propertyName name rc
                   Hbound Hclass).
  - unfold provenance. destruct (rc_type rc), (rc_source rc); discriminate.
Qed.

Lemma resolution_by_name_witness :
  getComponentClassDef (Sample.factory None)
    (JObj [("cellRenderer", JStr "myFramework")]) "cellRenderer" JNull
    (Some "agPlain")
  = Ok (Some {| component := Sample.frameworkClass; type := FRAMEWORK;
                source := REGISTERED_BY_NAME; paramsFromSelector := JNull |})
  /\ getComponentClassDef (Sample.factory None)
       (JObj [("cellRenderer", JStr "")]) "cellRenderer" JNull (Some "agPlain")
     = Ok (Some {| component := Sample.plainClass; type := PLAIN_JAVASCRIPT;
                   source := DEFAULT; paramsFromSelector := JNull |}).
Proof.
  split.
  - refine (proj1 (resolution_by_name (Sample.factory None)
                     (JObj [("cellRenderer", JStr "myFramework")])
                     "cellRenderer" JNull (Some "agPlain") "myFramework"
                     {| rc_component := Sample.frameworkClass;
                        rc_type := FRAMEWORK; rc_source := RCS_REGISTERED |}
                     eq_refl eq_refl _ eq_refl _ eq_refl (or_introl eq_refl))).
    + intros _. now exists "myFramework".
    + discriminate.
  - refine (proj1 (resolution_by_name (Sample.factory None)
                     (JObj [("cellRenderer", JStr "")])
                     "cellRenderer" JNull (Some "agPlain") "agPlain"
                     {| rc_component := Sample.plainClass;
                        rc_type := PLAIN_JAVASCRIPT; rc_source := RCS_DEFAULT |}
                     eq_refl eq_refl _ eq_refl _ eq_refl (or_intror eq_refl))).
    + intros H. discriminate H.
    + discriminate.
Defined.

(** ** Holders that are not there *)

Lemma get_falsy_holder (holder : JsValue) (k : string) :
  truthy holder = false -> get holder k = JUndefined.
Proof. intros H. destruct holder; try discriminate H; reflexivity. Qed.

(** X10. A holder that is null, undefined or otherwise falsy.  Called directly,
    [getComponentClassDef] and [createFinalParams] treat it as an empty
    object: resolution goes by the default name alone and no holder params
    are merged; the grid options are not consulted in its place.
    [createUserComponent] does put the grid options in its place, for
    resolution and for the [P + "Params"] entry alike. *)
Theorem falsy_holder (this : UserComponentFactory)
    (holder paramsFromGrid paramsFromSelector : JsValue) (propertyName : string)
    (defaultName : option string) (mandatory : bool)
    (cb : option (JsValue -> Component -> JsValue)) (tr : list Event)
    (Hfalsy : truthy holder = false) :
  getComponentClassDef this holder propertyName paramsFromGrid defaultName
    = getComponentClassDef this (JObj []) propertyName paramsFromGrid defaultName
  /\ createFinalParams this holder propertyName paramsFromGrid paramsFromSelector
     = createFinalParams this (JObj []) propertyName paramsFromGrid
         paramsFromSelector
  /\ createUserComponent this holder paramsFromGrid propertyName defaultName
       mandatory cb tr
     = createUserComponent this (gridOptions this) paramsFromGrid propertyName
         defaultName mandatory cb tr.
Proof.
  split; [| split].
  - rewrite !getComponentClassDef_by_name;
      rewrite ?(get_falsy_holder holder _ Hfalsy); try reflexivity;
      intros H; discriminate H.
  - unfold createFinalParams. now rewrite Hfalsy.
  - rewrite !createUserComponent_spec. unfold paramsForInit.
    assert (Hg : holderOrGridOptions this holder = gridOptions this).
    { unfold holderOrGridOptions. now rewrite Hfalsy. }
    assert (Hgg : holderOrGridOptions this (gridOptions this) = gridOptions this).
    { rewrite <- Hg at 1. rewrite holderOrGridOptions_idem. exact Hg. }
    now rewrite Hg, Hgg.
Qed.

Lemma falsy_holder_witness :
  let this := Fixture.factory true true None in
  getComponentClassDef this JNull "cellRenderer" JNull None = Ok None
  /\ fst (run (createUserComponent this JNull JNull "cellRenderer" None true None))
     = Ok (Some (InProgress 9 (Sample.instanceOf Sample.deferredClass))).
Proof.
  destruct (falsy_holder (Fixture.factory true true None) JNull JNull JNull
              "cellRenderer" None true None [] eq_refl) as [Hdef [_ Hcreate]].
  split.
  - rewrite Hdef. reflexivity.
  - unfold run. rewrite Hcreate. reflexivity.
Defined.

(** ** Selectors *)

Lemma readSpecification_selector_value (this : UserComponentFactory)
    (holder : JsValue) (propertyName : string) :
  truthy (get holder (propertyName ++ "Selector")) = true ->
  componentSelectorFunc (readSpecification this holder propertyName)
  = get holder (propertyName ++ "Selector").
Proof.
  intros Hsel.
  assert (Hholder : notNull holder = true).
  { destruct holder; try discriminate Hsel; reflexivity. }
  unfold readSpecification. rewrite Hholder.
  destruct (notNull (get holder propertyName) && _);
    [destruct (get holder propertyName);
     try destruct (doesImplementIComponent this _) |]; reflexivity.
Qed.

(** X11. A selector at [P + "Selector"] with no hardcoded form beside it is
    called with the resolution params (null for undefined).  The name
    looked up is the one it returns, and the default name when it returns
    null, no name or an empty one.  The descriptor takes class, kind and
    provenance from the registry entry and its params from the selector's
    result, also when the name came from the default; they are null when the
    selector returned null. *)
Theorem selector_resolution (this : UserComponentFactory)
    (holder : JsValue) (propertyName : string) (params : JsValue)
    (defaultName : option string)
    (selectorResult : option ComponentSelectorResult)
    (name : string) (registered : ComponentClassDef)
    (Hsel : truthy (get holder (propertyName ++ "Selector")) = true)
    (Hnative : hardcodedNative (get holder propertyName) = false)
    (Hfw : truthy (get holder (propertyName ++ "Framework")) = false)
    (Hcall : callSelector this (get holder (propertyName ++ "Selector"))
               (orNull params) = selectorResult)
    (Hname : match selectorResult with
             | Some r =>
                 if nameGiven (sel_component r) then sel_component r
                 else defaultName
             | None => defaultName
             end = Some name)
    (Hgiven : name <> "")
    (Hbound : lookupFromRegisteredComponents this propertyName (Some name)
              = Some registered) :
  getComponentClassDef this holder propertyName params defaultName
  = Ok (Some {| component := component registered;
                type := type registered;
                source := source registered;
                paramsFromSelector :=
                  match selectorResult with
                  | Some r => sel_params r
                  | None => JNull
                  end |}).
Proof.
  rewrite getComponentClassDef_unguarded; cbv zeta;
    rewrite ?Hfw, ?Hsel, ?Hnative; try reflexivity.
  pose proof (readSpecification_native this holder propertyName) as Hn.
  cbv zeta in Hn. rewrite Hnative in Hn.
  apply orb_false_elim in Hn. destruct Hn as [Hn Hfn].
  apply orb_false_elim in Hn. destruct Hn as [Hnm Hjs].
  unfold chooseClassDef.
  rewrite readSpecification_framework, readSpecification_selector.
  rewrite Hfw, Hjs, Hfn, Hsel.
  rewrite (readSpecification_selector_value this holder propertyName Hsel).
  rewrite Hcall. cbv zeta.
  assert (Hchosen :
    componentNameToUse selectorResult
      (hardcodedNameComponent (readSpecification this holder propertyName))
      defaultName = Some name).
  { unfold componentNameToUse. rewrite Hnm.
    destruct selectorResult as [r|]; [| exact Hname].
    destruct (nameGiven (sel_component r)); exact Hname. }
  rewrite Hchosen. simpl.
  apply String.eqb_neq in Hgiven. rewrite Hgiven. simpl.
  now rewrite Hbound.
Qed.

Lemma selector_resolution_witness :
  getComponentClassDef (Fixture.factory true true None)
    (JObj [("cellRendererSelector", Sample.selectorFunc)]) "cellRenderer"
    JUndefined (Some "agPlain")
  = Ok (Some {| component := Sample.plainClass; type := PLAIN_JAVASCRIPT;
                source := DEFAULT;
                paramsFromSelector := JObj [("fromSelector", JBool true)] |}).
Proof.
  refine (selector_resolution (Fixture.factory true true None)
            (JObj [("cellRendererSelector", Sample.selectorFunc)])
            "cellRenderer" JUndefined (Some "agPlain")
            (Some {| sel_component := None;
                     sel_params := JObj [("fromSelector", JBool true)] |})
            "agPlain"
            {| component := Sample.plainClass; type := PLAIN_JAVASCRIPT;
               source := DEFAULT; paramsFromSelector := JNull |}
            eq_refl eq_refl eq_refl eq_refl eq_refl _ eq_refl).
  discriminate.
Defined.

(** ** Edge cases of the params and of initialisation *)

(** X12. A [P + "Params"] entry that is neither a function nor an object (a
    string, a number, a boolean, null) is ignored without complaint:
    [createFinalParams] returns what it returns with no holder at all. *)
Theorem primitive_holder_params_ignored (this : UserComponentFactory)
    (holder : JsValue) (propertyName : string)
    (paramsFromGrid paramsFromSelector : JsValue)
    (Hleaf : isObject (get holder (propertyName ++ "Params")) = false)
    (Hnofun : forall r, get holder (propertyName ++ "Params") <> JFun r) :
  createFinalParams this holder propertyName paramsFromGrid paramsFromSelector
  = createFinalParams this JNull propertyName paramsFromGrid paramsFromSelector.
Proof.
  unfold createFinalParams. simpl.
  destruct (truthy holder); [| reflexivity].
  destruct (get holder (propertyName ++ "Params")) as [| |b|n|s|fs|r];
    try reflexivity.
  - discriminate Hleaf.
  - exfalso. now apply (Hnofun r).
Qed.

Lemma primitive_holder_params_ignored_witness :
  createFinalParams (Sample.factory None)
    (JObj [("cellRendererParams", JStr "bold")]) "cellRenderer"
    (JObj [("value", JNum 1)]) JNull
  = [("value", JNum 1); ("api", JStr "gridApi")].
Proof.
  refine (eq_trans
            (primitive_holder_params_ignored (Sample.factory None)
               (JObj [("cellRendererParams", JStr "bold")]) "cellRenderer"
               (JObj [("value", JNum 1)]) JNull eq_refl _)
            eq_refl).
  intros r H. discriminate H.
Defined.

(** X13. An instance without an [init] entry point is wired and nothing more:
    a customisation callback, supplied or not, is never called.  The
    concrete-class call makes the constructor call and the wiring call; the
    general call, after creating the instance, makes the wiring call and
    returns a future that is already resolved. *)
Theorem instance_without_init (this : UserComponentFactory)
    (c : Component) (params : JsValue)
    (cb : option (JsValue -> Component -> JsValue)) (tr : list Event)
    (Hnone : init c = None) :
  initialiseComponent c params cb tr = (Ok InitVoid, tr ++ [EvWireBean c])
  /\ (forall clazz, construct this clazz = c ->
        createUserComponentFromConcreteClass this clazz params cb tr
        = (Ok c, tr ++ [EvNew clazz; EvWireBean c]))
  /\ (forall holder paramsFromGrid propertyName defaultName mandatory
             paramsFromSelector tr0,
        createComponentInstance this (holderOrGridOptions this holder)
          propertyName paramsFromGrid defaultName mandatory tr0
        = (Ok (Some (c, paramsFromSelector)), tr) ->
        createUserComponent this holder paramsFromGrid propertyName
          defaultName mandatory cb tr0
        = (Ok (Some (Resolved c)), tr ++ [EvWireBean c])).
Proof.
  split; [| split].
  - rewrite initialiseComponent_spec. unfold initOutcome, initEvents.
    now rewrite Hnone.
  - intros clazz <-.
    unfold createUserComponentFromConcreteClass, bind at 1, emit.
    unfold bind. rewrite initialiseComponent_spec. unfold ret, initEvents.
    now rewrite Hnone, <- app_assoc.
  - intros holder pg P d m ps tr0 Hcreated.
    rewrite createUserComponent_spec, Hcreated. cbv zeta.
    unfold initOutcome, initEvents. now rewrite Hnone.
Qed.

Lemma instance_without_init_witness :
  let c := Sample.instanceOf Sample.bareClass in
  createUserComponentFromConcreteClass (Sample.factory None) Sample.bareClass
    JNull (Some (fun p _ => p)) []
  = (Ok c, [EvNew Sample.bareClass; EvWireBean c]).
Proof.
  exact (proj1 (proj2 (instance_without_init (Sample.factory None)
                         (Sample.instanceOf Sample.bareClass) JNull
                         (Some (fun p _ => p)) [] eq_refl))
           Sample.bareClass eq_refl).
Defined.

(** ** No key is lost *)

Lemma hasKey_assign (k k' : string) (v : JsValue) (fs : Fields) :
  hasKey (assign k' v fs) k = hasKey fs k || String.eqb k k'.
Proof.
  unfold hasKey. destruct (String.eqb k k') eqn:E.
  - apply String.eqb_eq in E. subst k'. rewrite lookup_assign_same.
    now rewrite orb_true_r.
  - apply String.eqb_neq in E. rewrite (lookup_assign_other _ _ _ _ E).
    now rewrite orb_false_r.
Qed.

Lemma hasKey_mergeKey (dest : Fields) (k k' : string) (v : JsValue) :
  hasKey (mergeKey dest k' v) k = hasKey dest k || String.eqb k k'.
Proof.
  unfold mergeKey.
  destruct (lookup k' dest) as [[]|]; try apply hasKey_assign.
  destruct v; apply hasKey_assign.
Qed.

Lemma hasKey_mergeDeep_object (dest src : Fields) (k : string) :
  hasKey (mergeDeep dest (JObj src)) k
  = hasKey dest k || existsb (fun kv => String.eqb k (fst kv)) src.
Proof.
  rewrite mergeDeep_object. revert dest.
  induction src as [|[k' v'] tl IH]; intros dest; simpl.
  - now rewrite orb_false_r.
  - rewrite IH, hasKey_mergeKey. now rewrite orb_assoc.
Qed.

Lemma hasKey_mergeDeep_keeps (dest : Fields) (source : JsValue) (k : string) :
  hasKey dest k = true -> hasKey (mergeDeep dest source) k = true.
Proof.
  intros H. destruct source; try exact H.
  rewrite hasKey_mergeDeep_object, H. reflexivity.
Qed.

Lemma existsb_key_in (k : string) (fs : Fields) :
  In k (List.map fst fs) ->
  existsb (fun kv => String.eqb k (fst kv)) fs = true.
Proof.
  intros Hin. apply existsb_exists.
  apply in_map_iff in Hin. destruct Hin as [[k' v] [Hk Hin]].
  exists (k', v). split; [exact Hin |]. simpl in *. subst k'.
  apply String.eqb_refl.
Qed.

(** X14. [createFinalParams] loses no key: every top-level key of the
    caller's params, of what the holder's [P + "Params"] entry contributes and
    of the selector's params is a key of the result, whatever the other
    sources hold under it. *)
Theorem createFinalParams_keeps_keys (this : UserComponentFactory)
    (holder : JsValue) (propertyName : string)
    (callerParams selectorParams : JsValue) (fs : Fields) (k : string)
    (Hsource : callerParams = JObj fs
               \/ holderParams this holder propertyName callerParams = JObj fs
               \/ selectorParams = JObj fs)
    (Hkey : In k (List.map fst fs)) :
  hasKey (createFinalParams this holder propertyName callerParams
            selectorParams) k = true.
Proof.
  assert (Hfinal :
    createFinalParams this holder propertyName callerParams selectorParams
    = let merged :=
        mergeDeep
          (mergeDeep (mergeDeep [] callerParams)
             (holderParams this holder propertyName callerParams))
          (orNull selectorParams) in
      if truthy (get (JObj merged) "api") then merged
      else assign "api" (get (gridOptions this) "api") merged).
  { unfold createFinalParams, holderParams. cbv zeta.
    destruct (if truthy holder then get holder (propertyName ++ "Params")
              else JNull) as [| |b|n|s|gs|r]; simpl;
      match goal with
      | |- context [truthy ?v] => destruct (truthy v)
      end; reflexivity. }
  rewrite Hfinal. cbv zeta.
  assert (Hmerged :
    hasKey
      (mergeDeep
         (mergeDeep (mergeDeep [] callerParams)
            (holderParams this holder propertyName callerParams))
         (orNull selectorParams)) k = true).
  { pose proof (existsb_key_in k fs Hkey) as Hex.
    destruct Hsource as [-> | [Hh | ->]].
    - do 2 apply hasKey_mergeDeep_keeps.
      now rewrite hasKey_mergeDeep_object, Hex, orb_true_r.
    - apply hasKey_mergeDeep_keeps. rewrite Hh.
      now rewrite hasKey_mergeDeep_object, Hex, orb_true_r.
    - change (orNull (JObj fs)) with (JObj fs).
      now rewrite hasKey_mergeDeep_object, Hex, orb_true_r. }
  destruct (truthy _); [exact Hmerged |].
  now rewrite hasKey_assign, Hmerged.
Qed.

Lemma createFinalParams_keeps_keys_witness :
  hasKey (createFinalParams (Sample.factory None)
            (JObj [("cellRendererParams", JObj [("value", JNum 2)])])
            "cellRenderer" (JObj [("value", JObj [("deep", JNum 1)])])
            (JObj [("other", JNull)]))
    "value" = true.
Proof.
  refine (createFinalParams_keeps_keys (Sample.factory None)
            (JObj [("cellRendererParams", JObj [("value", JNum 2)])])
            "cellRenderer" (JObj [("value", JObj [("deep", JNum 1)])])
            (JObj [("other", JNull)])
            [("value", JObj [("deep", JNum 1)])] "value"
            (or_introl eq_refl) _).
  simpl. left. reflexivity.
Defined.
